(** * networking-cisco: binding stores and cfg-agent notifier

    A shallow embedding of
    - [plugins/ml2/drivers/cisco/nexus/nexus_db_v2.py],
    - [plugins/ml2/drivers/cisco/n1kv/n1kv_db.py],
    - [plugins/cisco/l3/rpc/l3_router_rpc_joint_agent_api.py],
    with the part of SQLAlchemy's session and query interface these files
    call, and the properties of the binding store checked against them. *)

From Stdlib Require Import List ZArith String Bool Arith Lia.
From Stdlib Require Import Ascii.
Import ListNotations.

Set Implicit Arguments.

(** ** Python values *)

Module Py.

(** The column values and arguments the code passes around: [None],
    booleans, integers and strings. *)
Inductive value : Type :=
| VNone
| VBool (b : bool)
| VInt (z : Z)
| VStr (s : string).

(** Truth value testing ([if x:], [not x], [bool(x)]). *)
Definition truthy (v : value) : bool :=
  match v with
  | VNone => false
  | VBool b => b
  | VInt z => negb (Z.eqb z 0)
  | VStr s => negb (String.eqb s EmptyString)
  end.

(** Equality of column values, as a [filter_by] criterion compares them. *)
Definition eqb (a b : value) : bool :=
  match a, b with
  | VNone, VNone => true
  | VBool x, VBool y => Bool.eqb x y
  | VInt x, VInt y => Z.eqb x y
  | VStr x, VStr y => String.eqb x y
  | _, _ => false
  end.

(** Truth value of an optional object ([None] or an instance). *)
Definition is_some {A : Type} (o : option A) : bool :=
  match o with Some _ => true | None => false end.

(** Truth value of an instance of a mapped class: always true. *)
Definition instance {A : Type} (_ : A) : bool := true.

(** Truth value of a list: non-empty. *)
Definition nonempty {A : Type} (l : list A) : bool :=
  match l with [] => false | _ :: _ => true end.

End Py.

(** ** The mapped classes

    The table declarations ([nexus_models_v2], [n1kv_models]) are imported
    from outside this tree; a row is modelled by the columns the code sets
    or filters on. *)

Module nexus_models_v2.

Module NexusPortBinding.
Record t : Type := Build {
  port_id : Py.value;
  vlan_id : Py.value;
  vni : Py.value;
  switch_ip : Py.value;
  instance_id : Py.value;
  is_provider_vlan : Py.value
}.

(** The column names a keyword filter may mention. *)
Inductive column : Type :=
| Port_id | Vlan_id | Vni | Switch_ip | Instance_id | Is_provider_vlan.

Definition getattr (r : t) (c : column) : Py.value :=
  match c with
  | Port_id => port_id r
  | Vlan_id => vlan_id r
  | Vni => vni r
  | Switch_ip => switch_ip r
  | Instance_id => instance_id r
  | Is_provider_vlan => is_provider_vlan r
  end.

(** [binding.vlan_id = v] *)
Definition set_vlan_id (r : t) (v : Py.value) : t :=
  Build (port_id r) v (vni r) (switch_ip r) (instance_id r)
        (is_provider_vlan r).
End NexusPortBinding.

Module NexusNVEBinding.
Record t : Type := Build {
  vni : Py.value;
  switch_ip : Py.value;
  device_id : Py.value;
  mcast_group : Py.value
}.
End NexusNVEBinding.

End nexus_models_v2.

Module n1kv_models.

Module NetworkProfile.
Record t : Type := Build {
  id : Py.value;
  name : Py.value;
  segment_type : Py.value
}.
End NetworkProfile.

Module N1kvNetworkBinding.
Record t : Type := Build {
  network_id : Py.value;
  network_type : Py.value;
  segmentation_id : Py.value;
  profile_id : Py.value
}.
End N1kvNetworkBinding.

Module N1kvPortBinding.
Record t : Type := Build {
  port_id : Py.value;
  profile_id : Py.value
}.
End N1kvPortBinding.

Module PolicyProfile.
Record t : Type := Build {
  id : Py.value;
  name : Py.value;
  vsm_ip : Py.value
}.
End PolicyProfile.

End n1kv_models.

(** A keyword filter [**bfilter] over the Nexus port bindings. *)
Definition kwargs : Type :=
  list (nexus_models_v2.NexusPortBinding.column * Py.value).

(** ** Exceptions *)

Inductive exn : Type :=
(* sqlalchemy.orm.exc *)
| NoResultFound
| MultipleResultsFound
(* raised by a flush that the table declaration rejects *)
| DBError
(* nexus exceptions *)
| NexusPortBindingNotFound (bfilter : kwargs)
(* n1kv exceptions *)
| NetworkProfileNotFound (profile : Py.value)
| NetworkBindingNotFound (network_id : Py.value)
| PortBindingNotFound (port_id : Py.value).

(** ** Stateful computations that may raise

    A computation runs on a state, returns a value or raises, and leaves a
    state behind in both cases. *)

Definition M (S A : Type) : Type := S -> (exn + A) * S.

Definition ret {S A : Type} (a : A) : M S A := fun s => (inr a, s).

Definition raise {S A : Type} (e : exn) : M S A := fun s => (inl e, s).

Definition bind {S A B : Type} (c : M S A) (k : A -> M S B) : M S B :=
  fun s =>
    match c s with
    | (inr a, s') => k a s'
    | (inl e, s') => (inl e, s')
    end.

(** [try: c except ...: h], the handler re-raising what it does not catch. *)
Definition try_except {S A : Type} (c : M S A) (h : exn -> M S A) : M S A :=
  fun s =>
    match c s with
    | (inr a, s') => (inr a, s')
    | (inl e, s') => h e s'
    end.

Declare Scope py_scope.
Delimit Scope py_scope with py.
Notation "x <- c ;; k" := (bind c (fun x => k))
  (at level 61, c at next level, right associativity) : py_scope.
Notation "c ;;; k" := (bind c (fun _ => k))
  (at level 61, right associativity) : py_scope.
Open Scope py_scope.

(** [for x in l: f(x)] *)
Fixpoint for_each {S A : Type} (l : list A) (f : A -> M S unit) : M S unit :=
  match l with
  | [] => ret tt
  | x :: xs => f x ;;; for_each xs f
  end.

(** ** The SQLAlchemy session and query interface *)

Module Sa.

(** A persistent object: the row's identity in the table and its column
    values. *)
Record persistent (Row : Type) : Type := Persistent {
  ident : nat;
  state : Row
}.

(** A table: its rows in insertion order and the next identity to hand
    out. *)
Record table (Row : Type) : Type := Table {
  rows : list (persistent Row);
  next_ident : nat
}.

Definition empty_table (Row : Type) : table Row := Table [] 0.

Section Query.
Context {Row : Type}.

Definition Query : Type := list (persistent Row).

(** [query.filter_by] with keyword criteria *)
Definition filter_by (crit : Row -> bool) (q : Query) : Query :=
  filter (fun o => crit (state o)) q.

(** [query.all()]: the list of results, possibly empty. *)
Definition all {S : Type} (q : Query) : M S (list (persistent Row)) :=
  ret q.

(** [query.first()]: the first result, or [None]. *)
Definition first {S : Type} (q : Query) : M S (option (persistent Row)) :=
  ret (hd_error q).

(** [query.one()]: exactly one result, or an exception. *)
Definition one {S : Type} (q : Query) : M S (persistent Row) :=
  match q with
  | [] => raise NoResultFound
  | [o] => ret o
  | _ :: _ :: _ => raise MultipleResultsFound
  end.
End Query.

Section Session.
(** The database: one [table] per mapped class. *)
Variable DB : Type.
(** What the table declarations accept: primary and unique keys,
    foreign keys, nullability.  A flush checks it. *)
Variable admits : DB -> bool.

(** A session: what has been flushed to the database, and the unit of
    work on top of it. *)
Record session : Type := Session {
  flushed : DB;
  pending : DB
}.

(** [db.get_session()] *)
Definition get_session (db : DB) : session := Session db db.

(** Running a function body in a session of its own: the database it
    leaves is what it flushed. *)
Definition with_session {A : Type} (c : M session A) : M DB A :=
  fun db => let (r, s) := c (get_session db) in (r, flushed s).

(** [session.flush()]: the unit of work is written out, or rejected and
    rolled back. *)
Definition flush : M session unit :=
  fun s =>
    if admits (pending s)
    then (inr tt, Session (pending s) (pending s))
    else (inl DBError, Session (flushed s) (flushed s)).

Section Mapped.
Context {Row : Type}.
(** The table of the mapped class inside the database. *)
Variable tbl : DB -> table Row.
Variable set_tbl : table Row -> DB -> DB.

Definition on_pending (f : table Row -> table Row) (s : session)
  : session :=
  Session (flushed s) (set_tbl (f (tbl (pending s))) (pending s)).

(** [session.query(Row)] *)
Definition query : M session (@Query Row) :=
  fun s => (inr (rows (tbl (pending s))), s).

(** [session.add(Row(...))]: the new instance gets a fresh
    identity. *)
Definition add (r : Row) : M session (persistent Row) :=
  fun s =>
    let o := Persistent (next_ident (tbl (pending s))) r in
    (inr o,
     on_pending (fun t => Table (rows t ++ [o]) (S (next_ident t))) s).

(** [session.delete(o)] *)
Definition delete (o : persistent Row) : M session unit :=
  fun s =>
    (inr tt,
     on_pending
       (fun t =>
          Table (filter (fun x => negb (Nat.eqb (ident x) (ident o)))
                        (rows t))
                (next_ident t)) s).

(** [session.merge(o)]: the row of [o]'s identity takes [o]'s
    column values. *)
Definition merge (o : persistent Row) : M session unit :=
  fun s =>
    (inr tt,
     on_pending
       (fun t =>
          Table (map (fun x => if Nat.eqb (ident x) (ident o)
                               then o else x) (rows t))
                (next_ident t)) s).
End Mapped.
End Session.

(** Identities are distinct and below the next one handed out. *)
Definition wf_table {Row : Type} (t : table Row) : Prop :=
  NoDup (map (@ident Row) (rows t)) /\
  Forall (fun o => ident o < next_ident t) (rows t).

End Sa.

(** ** nexus_db_v2.py *)

Module nexus_db_v2.
Import nexus_models_v2.
Import NexusPortBinding (column(..)).

(** The two tables this file works on. *)
Record DB : Type := Database {
  nexusport_bindings : Sa.table NexusPortBinding.t;
  nexusnve_bindings : Sa.table NexusNVEBinding.t
}.

Definition set_nexusport_bindings (t : Sa.table NexusPortBinding.t)
           (db : DB) : DB :=
  Database t (nexusnve_bindings db).

Definition set_nexusnve_bindings (t : Sa.table NexusNVEBinding.t)
           (db : DB) : DB :=
  Database (nexusport_bindings db) t.

Definition empty : DB :=
  Database (Sa.empty_table _) (Sa.empty_table _).

Definition binding : Type := Sa.persistent NexusPortBinding.t.
Definition nve_binding : Type := Sa.persistent NexusNVEBinding.t.

(** A row satisfies a keyword filter when every named column has the
    given value. *)
Definition matches (bfilter : kwargs) (r : NexusPortBinding.t) : bool :=
  forallb (fun cv => Py.eqb (NexusPortBinding.getattr r (fst cv)) (snd cv))
          bfilter.

(** The query finalizer picked by name ([getattr(query, query_type)]),
    with the truth value of what it returns. *)
Record query_type (R : Type) : Type := QueryType {
  query_method : @Sa.Query NexusPortBinding.t -> M (Sa.session DB) R;
  truth : R -> bool
}.

Definition qt_all : query_type (list binding) :=
  QueryType (@Sa.all _ _) (@Py.nonempty _).
Definition qt_one : query_type binding :=
  QueryType (@Sa.one _ _) (@Py.instance _).
(** [first()] comes without ORDER BY: which of the selected rows the
    database returns first is its own choice, given here as the order
    [scan] in which it hands back the rows of a query. *)
Definition qt_first (scan : @Sa.Query NexusPortBinding.t -> Sa.Query)
  : query_type (option binding) :=
  QueryType (fun q => Sa.first (scan q)) (@Py.is_some _).

(** Runs in the session it is given; a caller passing no session puts it
    under [Sa.with_session].  The lookup returns only a truthy result and
    raises [NexusPortBindingNotFound] otherwise. *)
Definition _lookup_nexus_bindings {R : Type} (qt : query_type R)
           (bfilter : kwargs) : M (Sa.session DB) R :=
  q <- Sa.query nexusport_bindings ;;
  found <- try_except
             (bindings <- query_method qt (Sa.filter_by (matches bfilter) q) ;;
              if truth qt bindings then ret (Some bindings) else ret None)
             (fun e => match e with
                       | NoResultFound => ret None
                       | _ => raise e
                       end) ;;
  match found with
  | Some bindings => ret bindings
  | None => raise (NexusPortBindingNotFound bfilter)
  end.

Definition _lookup_all_nexus_bindings (bfilter : kwargs)
  : M (Sa.session DB) (list binding) :=
  _lookup_nexus_bindings qt_all bfilter.

Definition _lookup_one_nexus_binding (bfilter : kwargs)
  : M (Sa.session DB) binding :=
  _lookup_nexus_bindings qt_one bfilter.

Definition _lookup_first_nexus_binding
           (scan : @Sa.Query NexusPortBinding.t -> Sa.Query)
           (bfilter : kwargs)
  : M (Sa.session DB) (option binding) :=
  _lookup_nexus_bindings (qt_first scan) bfilter.

Definition get_nexusport_binding (port_id vlan_id switch_ip instance_id
                                  : Py.value) : M DB (list binding) :=
  Sa.with_session
    (_lookup_all_nexus_bindings
       [(Port_id, port_id); (Vlan_id, vlan_id); (Switch_ip, switch_ip);
        (Instance_id, instance_id)]).

Definition get_nexusvlan_binding (vlan_id switch_ip : Py.value)
  : M DB (list binding) :=
  Sa.with_session
    (_lookup_all_nexus_bindings
       [(Vlan_id, vlan_id); (Switch_ip, switch_ip)]).

Definition get_nexusport_switch_bindings (switch_ip : Py.value)
  : M DB (list binding) :=
  Sa.with_session (_lookup_all_nexus_bindings [(Switch_ip, switch_ip)]).

Definition get_nexusvm_bindings (vlan_id instance_id : Py.value)
  : M DB (list binding) :=
  Sa.with_session
    (_lookup_all_nexus_bindings
       [(Instance_id, instance_id); (Vlan_id, vlan_id)]).

Definition get_port_vlan_switch_binding (port_id vlan_id switch_ip
                                         : Py.value)
  : M DB (list binding) :=
  Sa.with_session
    (_lookup_all_nexus_bindings
       [(Port_id, port_id); (Switch_ip, switch_ip); (Vlan_id, vlan_id)]).

(** Falls off the end, returning [None], when the lookup raises
    [NexusPortBindingNotFound]. *)
Definition get_port_switch_bindings (port_id switch_ip : Py.value)
  : M DB (option (list binding)) :=
  try_except
    (l <- Sa.with_session
            (_lookup_all_nexus_bindings
               [(Port_id, port_id); (Switch_ip, switch_ip)]) ;;
     ret (Some l))
    (fun e => match e with
              | NexusPortBindingNotFound _ => ret None
              | _ => raise e
              end).

Definition get_nexussvi_bindings : M DB (list binding) :=
  Sa.with_session
    (_lookup_all_nexus_bindings [(Port_id, Py.VStr "router")]).

Definition get_nve_vni_switch_bindings (vni switch_ip : Py.value)
  : M DB (option (list nve_binding)) :=
  Sa.with_session
    (try_except
       (q <- Sa.query nexusnve_bindings ;;
        l <- Sa.all
               (Sa.filter_by
                  (fun r => Py.eqb (NexusNVEBinding.vni r) vni
                            && Py.eqb (NexusNVEBinding.switch_ip r) switch_ip)
                  q) ;;
        ret (Some l))
       (fun e => match e with
                 | NoResultFound => ret None
                 | _ => raise e
                 end)).

Definition get_nve_vni_member_bindings (vni switch_ip device_id : Py.value)
  : M DB (option (list nve_binding)) :=
  Sa.with_session
    (try_except
       (q <- Sa.query nexusnve_bindings ;;
        l <- Sa.all
               (Sa.filter_by
                  (fun r => Py.eqb (NexusNVEBinding.vni r) vni
                            && Py.eqb (NexusNVEBinding.switch_ip r) switch_ip
                            && Py.eqb (NexusNVEBinding.device_id r) device_id)
                  q) ;;
        ret (Some l))
       (fun e => match e with
                 | NoResultFound => ret None
                 | _ => raise e
                 end)).

Definition get_nve_switch_bindings (switch_ip : Py.value)
  : M DB (option (list nve_binding)) :=
  Sa.with_session
    (try_except
       (q <- Sa.query nexusnve_bindings ;;
        l <- Sa.all
               (Sa.filter_by
                  (fun r => Py.eqb (NexusNVEBinding.switch_ip r) switch_ip)
                  q) ;;
        ret (Some l))
       (fun e => match e with
                 | NoResultFound => ret None
                 | _ => raise e
                 end)).

Definition get_nve_vni_deviceid_bindings (vni device_id : Py.value)
  : M DB (option (list nve_binding)) :=
  Sa.with_session
    (try_except
       (q <- Sa.query nexusnve_bindings ;;
        l <- Sa.all
               (Sa.filter_by
                  (fun r => Py.eqb (NexusNVEBinding.vni r) vni
                            && Py.eqb (NexusNVEBinding.device_id r) device_id)
                  q) ;;
        ret (Some l))
       (fun e => match e with
                 | NoResultFound => ret None
                 | _ => raise e
                 end)).

Section Declared.
(** What the declarations of the two tables accept. *)
Variable admits : DB -> bool.

Definition add_nexusport_binding
           (port_id vlan_id vni switch_ip instance_id is_provider_vlan
            : Py.value) : M DB binding :=
  Sa.with_session
    (binding <- Sa.add nexusport_bindings set_nexusport_bindings
                  (NexusPortBinding.Build port_id vlan_id vni switch_ip
                                          instance_id is_provider_vlan) ;;
     Sa.flush admits ;;;
     ret binding).

Definition remove_nexusport_binding
           (port_id vlan_id vni switch_ip instance_id is_provider_vlan
            : Py.value) : M DB (list binding) :=
  Sa.with_session
    (binding <- _lookup_all_nexus_bindings
                  [(Vlan_id, vlan_id); (Vni, vni); (Switch_ip, switch_ip);
                   (Port_id, port_id); (Instance_id, instance_id);
                   (Is_provider_vlan, is_provider_vlan)] ;;
     for_each binding
              (Sa.delete nexusport_bindings set_nexusport_bindings) ;;;
     Sa.flush admits ;;;
     ret binding).

Definition update_nexusport_binding (port_id new_vlan_id : Py.value)
  : M DB (option binding) :=
  if negb (Py.truthy new_vlan_id) then ret None
  else
    Sa.with_session
      (binding <- _lookup_one_nexus_binding [(Port_id, port_id)] ;;
       let binding :=
         Sa.Persistent (Sa.ident binding)
           (NexusPortBinding.set_vlan_id (Sa.state binding) new_vlan_id) in
       Sa.merge nexusport_bindings set_nexusport_bindings binding ;;;
       Sa.flush admits ;;;
       ret (Some binding)).

Definition add_nexusnve_binding (vni switch_ip device_id mcast_group
                                 : Py.value) : M DB nve_binding :=
  Sa.with_session
    (binding <- Sa.add nexusnve_bindings set_nexusnve_bindings
                  (NexusNVEBinding.Build vni switch_ip device_id
                                         mcast_group) ;;
     Sa.flush admits ;;;
     ret binding).

Definition remove_nexusnve_binding (vni switch_ip device_id : Py.value)
  : M DB (option nve_binding) :=
  Sa.with_session
    (q <- Sa.query nexusnve_bindings ;;
     binding <- Sa.one
                  (Sa.filter_by
                     (fun r =>
                        Py.eqb (NexusNVEBinding.vni r) vni
                        && Py.eqb (NexusNVEBinding.switch_ip r) switch_ip
                        && Py.eqb (NexusNVEBinding.device_id r) device_id)
                     q) ;;
     if Py.instance binding
     then Sa.delete nexusnve_bindings set_nexusnve_bindings binding ;;;
          Sa.flush admits ;;;
          ret (Some binding)
     else ret None).
End Declared.

End nexus_db_v2.

(** ** n1kv_db.py *)

Module n1kv_db.
Import n1kv_models.

Record DB : Type := Database {
  network_profiles : Sa.table NetworkProfile.t;
  network_bindings : Sa.table N1kvNetworkBinding.t;
  port_bindings : Sa.table N1kvPortBinding.t
}.

Definition set_network_profiles (t : Sa.table NetworkProfile.t) (db : DB)
  : DB := Database t (network_bindings db) (port_bindings db).

Definition set_network_bindings (t : Sa.table N1kvNetworkBinding.t)
           (db : DB) : DB :=
  Database (network_profiles db) t (port_bindings db).

Definition set_port_bindings (t : Sa.table N1kvPortBinding.t) (db : DB)
  : DB := Database (network_profiles db) (network_bindings db) t.

Definition empty : DB :=
  Database (Sa.empty_table _) (Sa.empty_table _) (Sa.empty_table _).

(** Functions taking [db_session=None] are given as session bodies:
    [db_session or db.get_session()] runs them in the caller's session,
    or, under [Sa.with_session], in one of their own. *)

Definition get_network_profile_by_type (segment_type : Py.value)
  : M (Sa.session DB) (Sa.persistent NetworkProfile.t) :=
  try_except
    (q <- Sa.query network_profiles ;;
     Sa.one (Sa.filter_by
               (fun r => Py.eqb (NetworkProfile.segment_type r) segment_type)
               q))
    (fun e => match e with
              | NoResultFound => raise (NetworkProfileNotFound segment_type)
              | _ => raise e
              end).

Definition policy_profile_in_use (profile_id : Py.value) : M DB bool :=
  Sa.with_session
    (q <- Sa.query port_bindings ;;
     r <- Sa.first (Sa.filter_by
                      (fun r => Py.eqb (N1kvPortBinding.profile_id r)
                                       profile_id) q) ;;
     ret (Py.is_some r)).

Definition get_network_binding (network_id : Py.value)
  : M DB (Sa.persistent N1kvNetworkBinding.t) :=
  Sa.with_session
    (try_except
       (q <- Sa.query network_bindings ;;
        Sa.one (Sa.filter_by
                  (fun r => Py.eqb (N1kvNetworkBinding.network_id r)
                                   network_id) q))
       (fun e => match e with
                 | NoResultFound => raise (NetworkBindingNotFound network_id)
                 | _ => raise e
                 end)).

Definition get_policy_binding (port_id : Py.value)
  : M (Sa.session DB) (Sa.persistent N1kvPortBinding.t) :=
  try_except
    (q <- Sa.query port_bindings ;;
     Sa.one (Sa.filter_by
               (fun r => Py.eqb (N1kvPortBinding.port_id r) port_id) q))
    (fun e => match e with
              | NoResultFound => raise (PortBindingNotFound port_id)
              | _ => raise e
              end).

Definition get_network_profiles : M DB (list (Sa.persistent NetworkProfile.t)) :=
  Sa.with_session
    (q <- Sa.query network_profiles ;;
     Sa.all q).

(** Neither [one()] is guarded: [NoResultFound] and
    [MultipleResultsFound] reach the caller as they are. *)
Definition get_network_profile_by_network (network_id : Py.value)
  : M DB (Sa.persistent NetworkProfile.t) :=
  Sa.with_session
    (q <- Sa.query network_bindings ;;
     network_profile_local <-
       Sa.one (Sa.filter_by
                 (fun r => Py.eqb (N1kvNetworkBinding.network_id r)
                                  network_id) q) ;;
     q' <- Sa.query network_profiles ;;
     Sa.one (Sa.filter_by
               (fun r => Py.eqb (NetworkProfile.id r)
                                (N1kvNetworkBinding.profile_id
                                   (Sa.state network_profile_local))) q')).

Section PolicyProfiles.
(** The policy profiles live in a table of the same database; the two
    functions below read nothing else and write nothing, so they are
    given over any database with such a table.  Their
    [with db_session.begin(subtransactions=True)] block has nothing to
    write out when it is left, and the error they log is not modelled. *)
Variable Database' : Type.
Variable policy_profiles : Database' -> Sa.table PolicyProfile.t.
(** Their [first()] comes without ORDER BY: [scan] is the order in which
    the database hands back the rows of a query. *)
Variable scan : @Sa.Query PolicyProfile.t -> @Sa.Query PolicyProfile.t.

Definition get_policy_profile_by_name (name : Py.value)
  : M (Sa.session Database') (option (Sa.persistent PolicyProfile.t)) :=
  q <- Sa.query policy_profiles ;;
  policy_profile <-
    Sa.first
      (scan (Sa.filter_by (fun r => Py.eqb (PolicyProfile.name r) name) q)) ;;
  ret policy_profile.

Definition get_policy_profile_by_uuid (profile_id : Py.value)
  : M (Sa.session Database') (option (Sa.persistent PolicyProfile.t)) :=
  q <- Sa.query policy_profiles ;;
  policy_profile <-
    Sa.first
      (scan (Sa.filter_by (fun r => Py.eqb (PolicyProfile.id r) profile_id)
                          q)) ;;
  ret policy_profile.
End PolicyProfiles.

Section Declared.
(** What the declarations of the tables accept. *)
Variable admits : DB -> bool.

Definition add_network_binding
           (network_id network_type segment_id netp_id : Py.value)
  : M (Sa.session DB) (Sa.persistent N1kvNetworkBinding.t) :=
  binding <- Sa.add network_bindings set_network_bindings
               (N1kvNetworkBinding.Build network_id network_type
                                         segment_id netp_id) ;;
  Sa.flush admits ;;;
  ret binding.

Definition remove_network_profile (netp_id : Py.value)
  : M (Sa.session DB) unit :=
  q <- Sa.query network_profiles ;;
  nprofile <- Sa.first (Sa.filter_by
                          (fun r => Py.eqb (NetworkProfile.id r) netp_id)
                          q) ;;
  match nprofile with
  | Some nprofile =>
      Sa.delete network_profiles set_network_profiles nprofile ;;;
      Sa.flush admits
  | None => ret tt
  end.

(** The [with db_session.begin(subtransactions=True)] block writes the
    unit of work out when it is left. *)
Definition add_policy_binding (port_id pprofile_id : Py.value)
  : M (Sa.session DB) (Sa.persistent N1kvPortBinding.t) :=
  binding <- Sa.add port_bindings set_port_bindings
               (N1kvPortBinding.Build port_id pprofile_id) ;;
  Sa.flush admits ;;;
  ret binding.
End Declared.

End n1kv_db.

(** ** l3_router_rpc_joint_agent_api.py *)

Module l3_router_rpc_joint_agent_api.

(** [router['hosting_device']] is [None] or a dict with an ['id']. *)
Record hosting_device_dict : Type := HostingDevice {
  hd_id : Py.value
}.

Record router_dict : Type := Router {
  id : Py.value;
  hosting_device : option hosting_device_dict
}.

Record agent : Type := Agent {
  agent_type : Py.value;
  host : Py.value
}.

(** [hosting_data]: [None], or a dict from hosting device id to the ids
    of the logical resources it hosted, by kind. *)
Definition hosting_data_dict : Type :=
  option (list (Py.value * list (string * list Py.value))).

Definition hosting_data_truth (d : hosting_data_dict) : bool :=
  match d with
  | None => false
  | Some l => Py.nonempty l
  end.

Inductive topic_name : Type := CFG_AGENT_L3_ROUTING | CFG_AGENT.

(** The keyword arguments of a cast. *)
Inductive cast_args : Type :=
| routers_kw (routers : list Py.value)
| payload_kw (hosting_data : hosting_data_dict) (deconfigure : Py.value).

Section Notifier.
(** The request context, the L3 plugin and its state come from the
    plugin host. *)
Variable context : Type.
Variable is_admin : context -> bool.
Variable elevated : context -> context.
Variable plugin : Type.
Variable get_cfg_agents_for_hosting_devices :
  context -> list Py.value -> M plugin (list agent).

(** One message handed to the RPC client. *)
Record cast_msg : Type := Cast {
  topic : topic_name;
  server : Py.value;
  ctxt : context;
  method : string;
  args : cast_args
}.

(** The notifier's surroundings: the plugin, and what the client was
    asked to cast, oldest first. *)
Record world : Type := World {
  _l3plugin : plugin;
  client : list cast_msg
}.

Definition call_plugin {A : Type} (c : M plugin A) : M world A :=
  fun w => let (r, p) := c (_l3plugin w) in (r, World p (client w)).

(** [self.client.prepare(...).cast(context, method, **kwargs)] *)
Definition cast (t : topic_name) (srv : Py.value) (c : context)
           (m : string) (a : cast_args) : M world unit :=
  fun w => (inr tt, World (_l3plugin w) (client w ++ [Cast t srv c m a])).

Definition _agent_notification (ctx : context) (method : string)
           (routers : list router_dict) (operation data : Py.value)
  : M world unit :=
  let admin_context := if is_admin ctx then ctx else elevated ctx in
  for_each routers
    (fun router =>
       match hosting_device router with
       | None => ret tt
       | Some hd =>
           agents <- call_plugin
                       (get_cfg_agents_for_hosting_devices
                          admin_context [hd_id hd]) ;;
           for_each agents
             (fun agent =>
                cast CFG_AGENT_L3_ROUTING (host agent) ctx method
                     (routers_kw [id router]))
       end).

Definition router_deleted (ctx : context) (router : router_dict)
  : M world unit :=
  _agent_notification ctx "router_deleted" [router] Py.VNone Py.VNone.

Definition routers_updated (ctx : context) (routers : list router_dict)
           (operation data : Py.value) : M world unit :=
  if Py.nonempty routers
  then _agent_notification ctx "routers_updated" routers operation data
  else ret tt.

Definition hosting_devices_removed (ctx : context)
           (hosting_data : hosting_data_dict) (deconfigure : Py.value)
           (host : Py.value) : M world unit :=
  if negb (hosting_data_truth hosting_data) then ret tt
  else cast CFG_AGENT host ctx "hosting_devices_removed"
            (payload_kw hosting_data deconfigure).
End Notifier.

End l3_router_rpc_joint_agent_api.

(** ** Observations on the stores, and the declarations compared *)

Module BindingStore.
Import nexus_models_v2 nexus_db_v2.

Definition port_rows (db : DB) : list binding :=
  Sa.rows (nexusport_bindings db).

Definition nve_rows (db : DB) : list nve_binding :=
  Sa.rows (nexusnve_bindings db).

(** The rows a keyword filter selects. *)
Definition find (bfilter : kwargs) (db : DB) : list binding :=
  Sa.filter_by (matches bfilter) (port_rows db).

(** The key tuple (port_id, vlan_id, switch_ip) of a row. *)
Definition key_of (o : binding) : Py.value * Py.value * Py.value :=
  (NexusPortBinding.port_id (Sa.state o),
   NexusPortBinding.vlan_id (Sa.state o),
   NexusPortBinding.switch_ip (Sa.state o)).

(** No two rows share a key tuple. *)
Definition unique_keys (db : DB) : Prop :=
  NoDup (map key_of (port_rows db)).

Definition key_eqb (k1 k2 : Py.value * Py.value * Py.value) : bool :=
  let '(p1, v1, s1) := k1 in
  let '(p2, v2, s2) := k2 in
  Py.eqb p1 p2 && Py.eqb v1 v2 && Py.eqb s1 s2.

Fixpoint distinct_keys (l : list (Py.value * Py.value * Py.value)) : bool :=
  match l with
  | [] => true
  | k :: ks => negb (existsb (key_eqb k) ks) && distinct_keys ks
  end.

(** A table declaration whose only key is the row identity: it accepts
    every table. *)
Definition surrogate_key_only (_ : DB) : bool := true.

(** A table declaration making the key tuple unique. *)
Definition key_tuple_unique (db : DB) : bool :=
  distinct_keys (map key_of (port_rows db)).

(** The databases the port-binding operations lead to from the empty
    one. *)
Inductive reachable (admits : DB -> bool) : DB -> Prop :=
| reach_empty : reachable admits empty
| reach_add db p v n s i b :
    reachable admits db ->
    reachable admits (snd (add_nexusport_binding admits p v n s i b db))
| reach_remove db p v n s i b :
    reachable admits db ->
    reachable admits (snd (remove_nexusport_binding admits p v n s i b db))
| reach_update db p v :
    reachable admits db ->
    reachable admits (snd (update_nexusport_binding admits p v db)).

(** The table after [session.delete] of every row a filter selects. *)
Definition without (bfilter : kwargs) (db : DB) : DB :=
  set_nexusport_bindings
    (Sa.Table (filter (fun o => negb (matches bfilter (Sa.state o)))
                      (port_rows db))
              (Sa.next_ident (nexusport_bindings db)))
    db.

(** The table after a new row is added. *)
Definition with_row (r : NexusPortBinding.t) (db : DB) : DB :=
  set_nexusport_bindings
    (Sa.Table (port_rows db
               ++ [Sa.Persistent (Sa.next_ident (nexusport_bindings db)) r])
              (S (Sa.next_ident (nexusport_bindings db))))
    db.

(** The table after every binding of a port takes a new vlan. *)
Definition with_vlan (port_id new_vlan_id : Py.value) (db : DB) : DB :=
  set_nexusport_bindings
    (Sa.Table
       (map (fun o =>
               if Py.eqb (NexusPortBinding.port_id (Sa.state o)) port_id
               then Sa.Persistent (Sa.ident o)
                      (NexusPortBinding.set_vlan_id (Sa.state o) new_vlan_id)
               else o)
            (port_rows db))
       (Sa.next_ident (nexusport_bindings db)))
    db.

(** The table after [session.merge] of one changed object. *)
Definition merged (o' : binding) (db : DB) : DB :=
  set_nexusport_bindings
    (Sa.Table (map (fun x => if Nat.eqb (Sa.ident x) (Sa.ident o')
                             then o' else x) (port_rows db))
              (Sa.next_ident (nexusport_bindings db)))
    db.

(** The table after [session.delete] of each object of a list. *)
Definition deleted (l : list binding) (db : DB) : DB :=
  set_nexusport_bindings
    (Sa.Table
       (filter (fun x => negb (existsb (fun o => Nat.eqb (Sa.ident x)
                                                         (Sa.ident o)) l))
               (port_rows db))
       (Sa.next_ident (nexusport_bindings db)))
    db.

(** Sample rows and databases. *)
Definition sample_row (instance_id : string) : NexusPortBinding.t :=
  NexusPortBinding.Build (Py.VStr "ethernet:1/10") (Py.VInt 100) Py.VNone
                         (Py.VStr "1.1.1.1") (Py.VStr instance_id)
                         (Py.VBool false).

Definition one_binding : DB :=
  with_row (sample_row "vm1") empty.

Definition two_bindings : DB :=
  with_row (sample_row "vm2") one_binding.

End BindingStore.

Module ProfileStore.
Import n1kv_models n1kv_db.

Definition profile_rows (db : DB) : list (Sa.persistent NetworkProfile.t) :=
  Sa.rows (network_profiles db).

(** Some network binding refers to the profile. *)
Definition network_profile_referenced (netp_id : Py.value) (db : DB)
  : bool :=
  existsb (fun o => Py.eqb (N1kvNetworkBinding.profile_id (Sa.state o))
                           netp_id)
          (Sa.rows (network_bindings db)).


(** The database after [session.delete] of one profile. *)
Definition without_profile (o : Sa.persistent NetworkProfile.t) (db : DB)
  : DB :=
  set_network_profiles
    (Sa.Table (filter (fun x => negb (Nat.eqb (Sa.ident x) (Sa.ident o)))
                      (profile_rows db))
              (Sa.next_ident (network_profiles db)))
    db.

(** The database after a network binding is added. *)
Definition with_network_binding (r : N1kvNetworkBinding.t) (db : DB) : DB :=
  set_network_bindings
    (Sa.Table (Sa.rows (network_bindings db)
               ++ [Sa.Persistent (Sa.next_ident (network_bindings db)) r])
              (S (Sa.next_ident (network_bindings db))))
    db.

(** The network bindings of a network. *)
Definition bindings_of (network_id : Py.value) (db : DB)
  : list (Sa.persistent N1kvNetworkBinding.t) :=
  Sa.filter_by (fun r => Py.eqb (N1kvNetworkBinding.network_id r) network_id)
               (Sa.rows (network_bindings db)).

(** The network profiles with an id. *)
Definition profiles_with (netp_id : Py.value) (db : DB)
  : list (Sa.persistent NetworkProfile.t) :=
  Sa.filter_by (fun r => Py.eqb (NetworkProfile.id r) netp_id)
               (profile_rows db).

(** A declaration with no constraint across or inside the tables. *)
Definition unconstrained (_ : DB) : bool := true.

(** Every network binding names a network profile that exists: the
    foreign key from the bindings' [profile_id] to the profiles' [id]. *)
Definition references_kept (db : DB) : bool :=
  forallb
    (fun b =>
       existsb (fun p => Py.eqb (NetworkProfile.id (Sa.state p))
                                (N1kvNetworkBinding.profile_id (Sa.state b)))
               (profile_rows db))
    (Sa.rows (network_bindings db)).

(** A declaration with that foreign key and nothing else. *)
Definition foreign_key_declared (db : DB) : bool := references_kept db.


(** A network profile and a network created from it. *)
Definition profile_in_use : DB :=
  Database
    (Sa.Table [Sa.Persistent 0
                 (NetworkProfile.Build (Py.VStr "np-1") (Py.VStr "default-vlan")
                                       (Py.VStr "vlan"))] 1)
    (Sa.Table [Sa.Persistent 0
                 (N1kvNetworkBinding.Build (Py.VStr "net-1") (Py.VStr "vlan")
                                           (Py.VInt 100) (Py.VStr "np-1"))] 1)
    (Sa.empty_table _).

End ProfileStore.

(** ** Strings and dictionaries of the configuration reader *)

Module PyStr.

(** [c.lower()] on an ASCII character. *)
Definition lower_char (c : ascii) : ascii :=
  let n := nat_of_ascii c in
  if Nat.leb 65 n && Nat.leb n 90 then ascii_of_nat (n + 32) else c.

(** [s.lower()] *)
Fixpoint lower (s : string) : string :=
  match s with
  | EmptyString => EmptyString
  | String c s' => String (lower_char c) (lower s')
  end.

(** [s.partition(sep)] for a separator of one character: the part before
    the first separator, the separator, the part after it; or the string
    and two empty strings when there is no separator. *)
Fixpoint partition (sep : ascii) (s : string) : string * string * string :=
  match s with
  | EmptyString => (EmptyString, EmptyString, EmptyString)
  | String c s' =>
      if Ascii.eqb c sep then (EmptyString, String sep EmptyString, s')
      else let '(before, found, after) := partition sep s' in
           (String c before, found, after)
  end.

(** [c in s] *)
Fixpoint contains (c : ascii) (s : string) : bool :=
  match s with
  | EmptyString => false
  | String c' s' => Ascii.eqb c' c || contains c s'
  end.

End PyStr.

(** ** nexus/config.py *)

Module nexus_config.

(** The class attribute [nexus_dict]: a dictionary keyed by
    (device address, keyword), entries in insertion order. *)
Definition dict : Type := list ((string * string) * string).

Definition dev_key_eqb (a b : string * string) : bool :=
  String.eqb (fst a) (fst b) && String.eqb (snd a) (snd b).

(** [d[k] = v]: an existing key keeps its place. *)
Fixpoint setitem (k : string * string) (v : string) (d : dict) : dict :=
  match d with
  | [] => [(k, v)]
  | (k', v') :: d' =>
      if dev_key_eqb k' k then (k', v) :: d'
      else (k', v') :: setitem k v d'
  end.

(** [d.get(k)] *)
Fixpoint get (k : string * string) (d : dict) : option string :=
  match d with
  | [] => None
  | (k', v') :: d' => if dev_key_eqb k' k then Some v' else get k d'
  end.

(** What the multi-file parser holds after reading: per file, the
    sections in the order [keys()] yields them, each with its items in the
    order [items()] yields them; an item is a keyword with the list of
    its values. *)
Definition items : Type := list (string * list string).
Definition parsed_file : Type := list (string * items).

Inductive config_exc : Type :=
| Error (msg : string)
| IndexError.

(** [for dev_key, value in ...items(): self.nexus_dict[dev_ip, dev_key] =
    value[0]] *)
Fixpoint for_items (dev_ip : string) (its : items) (nexus_dict : dict)
  : (config_exc + unit) * dict :=
  match its with
  | [] => (inr tt, nexus_dict)
  | (dev_key, value) :: rest =>
      match value with
      | [] => (inl IndexError, nexus_dict)
      | value0 :: _ =>
          for_items dev_ip rest (setitem (dev_ip, dev_key) value0 nexus_dict)
      end
  end.

(** [for parsed_item in parsed_file.keys(): ...] *)
Fixpoint for_sections (sections : parsed_file) (nexus_dict : dict)
  : (config_exc + unit) * dict :=
  match sections with
  | [] => (inr tt, nexus_dict)
  | (parsed_item, its) :: rest =>
      let '(dev_id, sep, dev_ip) := PyStr.partition ":" parsed_item in
      if String.eqb (PyStr.lower dev_id) "ml2_mech_cisco_nexus"
      then match for_items dev_ip its nexus_dict with
           | (inr _, d) => for_sections rest d
           | (inl e, d) => (inl e, d)
           end
      else for_sections rest nexus_dict
  end.

(** [for parsed_file in multi_parser.parsed: ...] *)
Fixpoint for_files (parsed : list parsed_file) (nexus_dict : dict)
  : (config_exc + unit) * dict :=
  match parsed with
  | [] => (inr tt, nexus_dict)
  | file :: rest =>
      match for_sections file nexus_dict with
      | (inr _, d) => for_files rest d
      | (inl e, d) => (inl e, d)
      end
  end.

(** [config_file] is [cfg.CONF.config_file]; [read_ok] and [parsed] are
    what [multi_parser.read] returned and collected, [parsed] in the order
    in which the parser holds the files, which is its own and need not be
    that of [config_file]. *)
Definition _create_ml2_mech_device_cisco_dictionary
           (config_file read_ok : list string) (parsed : list parsed_file)
           (nexus_dict : dict) : (config_exc + unit) * dict :=
  if negb (Nat.eqb (List.length read_ok) (List.length config_file))
  then (inl (Error "Some config files were not parsed properly"), nexus_dict)
  else for_files parsed nexus_dict.

(** The keywords a run assigns, in order: what the nexus sections of the
    files spell out. *)
Definition section_assignments (s : string * items)
  : list ((string * string) * list string) :=
  let '(dev_id, sep, dev_ip) := PyStr.partition ":" (fst s) in
  if String.eqb (PyStr.lower dev_id) "ml2_mech_cisco_nexus"
  then map (fun it => ((dev_ip, fst it), snd it)) (snd s)
  else [].

Definition assignments (parsed : list parsed_file)
  : list ((string * string) * list string) :=
  flat_map (flat_map section_assignments) parsed.

(** [value[0]] of each assignment, for lists that have one. *)
Definition first_values (l : list ((string * string) * list string))
  : list ((string * string) * string) :=
  map (fun a => (fst a, hd EmptyString (snd a))) l.

(** The last value assigned to a key, if any. *)
Fixpoint last_assigned (k : string * string)
         (l : list ((string * string) * string)) : option string :=
  match l with
  | [] => None
  | (k', v) :: rest =>
      match last_assigned k rest with
      | Some w => Some w
      | None => if dev_key_eqb k' k then Some v else None
      end
  end.

(** What a key holds once a list of assignments is made on a
    dictionary. *)
Definition holds_after (l : list ((string * string) * string)) (d : dict)
           (k : string * string) : option string :=
  match last_assigned k l with
  | Some v => Some v
  | None => get k d
  end.

End nexus_config.

(** ** Observations on the NVE bindings *)

Module NveStore.
Import nexus_models_v2 nexus_db_v2.

(** The rows of a (vni, switch, device) member. *)
Definition members (vni switch_ip device_id : Py.value) (db : DB)
  : list nve_binding :=
  Sa.filter_by
    (fun r => Py.eqb (NexusNVEBinding.vni r) vni
              && Py.eqb (NexusNVEBinding.switch_ip r) switch_ip
              && Py.eqb (NexusNVEBinding.device_id r) device_id)
    (BindingStore.nve_rows db).

(** The database after an NVE binding is added. *)
Definition with_nve (r : NexusNVEBinding.t) (db : DB) : DB :=
  set_nexusnve_bindings
    (Sa.Table (BindingStore.nve_rows db
               ++ [Sa.Persistent (Sa.next_ident (nexusnve_bindings db)) r])
              (S (Sa.next_ident (nexusnve_bindings db))))
    db.

(** The database after [session.delete] of one NVE binding. *)
Definition without_nve (o : nve_binding) (db : DB) : DB :=
  set_nexusnve_bindings
    (Sa.Table (filter (fun x => negb (Nat.eqb (Sa.ident x) (Sa.ident o)))
                      (BindingStore.nve_rows db))
              (Sa.next_ident (nexusnve_bindings db)))
    db.

End NveStore.

Unset Implicit Arguments.

(** * Properties *)

(** ** Python values *)

Lemma py_eqb_eq (a b : Py.value) : Py.eqb a b = true <-> a = b.
Proof.
  destruct a, b; simpl; split; intros H; try discriminate; try reflexivity.
  - apply Bool.eqb_prop in H. now subst.
  - injection H as ->. apply Bool.eqb_reflx.
  - apply Z.eqb_eq in H. now subst.
  - injection H as ->. apply Z.eqb_refl.
  - apply String.eqb_eq in H. now subst.
  - injection H as ->. apply String.eqb_refl.
Qed.

Lemma py_eqb_refl (a : Py.value) : Py.eqb a a = true.
Proof. now apply py_eqb_eq. Qed.

(** ** Nexus port bindings: lookups *)

Section NexusLookups.
Import nexus_models_v2 nexus_db_v2 BindingStore.
Import NexusPortBinding (column(..)).

(** A row matches a keyword filter when each named column holds the
    given value. *)
Lemma matches_spec (bfilter : kwargs) (r : NexusPortBinding.t) :
  matches bfilter r = true <->
  forall c v, In (c, v) bfilter -> NexusPortBinding.getattr r c = v.
Proof.
  unfold matches. rewrite forallb_forall. split.
  - intros H c v Hin. apply py_eqb_eq. exact (H (c, v) Hin).
  - intros H [c v] Hin. apply py_eqb_eq. simpl. now apply H.
Qed.

Lemma find_In (bfilter : kwargs) (db : DB) (o : binding) :
  In o (find bfilter db) <->
  In o (port_rows db) /\ matches bfilter (Sa.state o) = true.
Proof. unfold find, Sa.filter_by. apply filter_In. Qed.

Lemma lookup_all_run (bfilter : kwargs) (s : Sa.session DB) :
  _lookup_all_nexus_bindings bfilter s =
  match find bfilter (Sa.pending s) with
  | [] => (inl (NexusPortBindingNotFound bfilter), s)
  | o :: l => (inr (o :: l), s)
  end.
Proof.
  unfold _lookup_all_nexus_bindings, _lookup_nexus_bindings, Sa.query,
    bind, try_except, find, port_rows.
  cbn. destruct (Sa.filter_by _ _); reflexivity.
Qed.

Lemma lookup_one_run (bfilter : kwargs) (s : Sa.session DB) :
  _lookup_one_nexus_binding bfilter s =
  match find bfilter (Sa.pending s) with
  | [] => (inl (NexusPortBindingNotFound bfilter), s)
  | [o] => (inr o, s)
  | _ :: _ :: _ => (inl MultipleResultsFound, s)
  end.
Proof.
  unfold _lookup_one_nexus_binding, _lookup_nexus_bindings, Sa.query,
    bind, try_except, find, port_rows.
  cbn. destruct (Sa.filter_by _ _) as [|o [|o' l]]; reflexivity.
Qed.

Lemma lookup_all_call (bfilter : kwargs) (db : DB) :
  Sa.with_session (_lookup_all_nexus_bindings bfilter) db =
  match find bfilter db with
  | [] => (inl (NexusPortBindingNotFound bfilter), db)
  | o :: l => (inr (o :: l), db)
  end.
Proof.
  unfold Sa.with_session. rewrite lookup_all_run. cbn.
  destruct (find bfilter db); reflexivity.
Qed.

(** C1 (as amended): the 'all' lookup over the Nexus port bindings
    returns the list of all rows matching the keyword filter when there
    is at least one, and raises [NexusPortBindingNotFound] when there is
    none; it never returns an empty list.  [get_port_switch_bindings]
    turns that exception into [None].  The database is left as it was. *)
Theorem lookup_all_found_or_raises (bfilter : kwargs) (db : DB) :
  Sa.with_session (_lookup_all_nexus_bindings bfilter) db =
    match find bfilter db with
    | [] => (inl (NexusPortBindingNotFound bfilter), db)
    | o :: l => (inr (o :: l), db)
    end
  /\ (forall o, In o (find bfilter db) <->
                In o (port_rows db) /\
                forall c v, In (c, v) bfilter ->
                            NexusPortBinding.getattr (Sa.state o) c = v)
  /\ Sa.with_session (_lookup_all_nexus_bindings bfilter) db
     <> (inr [], db)
  /\ forall port_id switch_ip,
      get_port_switch_bindings port_id switch_ip db =
      match find [(Port_id, port_id); (Switch_ip, switch_ip)] db with
      | [] => (inr None, db)
      | o :: l => (inr (Some (o :: l)), db)
      end.
Proof.
  split; [apply lookup_all_call|]. split; [|split].
  - intros o. rewrite find_In, matches_spec. reflexivity.
  - rewrite lookup_all_call. destruct (find bfilter db); discriminate.
  - intros port_id switch_ip.
    unfold get_port_switch_bindings, try_except, bind.
    rewrite lookup_all_call.
    destruct (find _ db); reflexivity.
Qed.

(** C1 (as stated) fails: on a store with no binding for the switch the
    lookup raises instead of returning the empty sequence. *)
Lemma lookup_all_empty_raises :
  get_nexusport_switch_bindings (Py.VStr "1.1.1.1") empty
  = (inl (NexusPortBindingNotFound [(Switch_ip, Py.VStr "1.1.1.1")]), empty)
  /\ fst (get_nexusport_switch_bindings (Py.VStr "1.1.1.1") empty)
     <> inr [].
Proof. split; [reflexivity | discriminate]. Qed.

(** C4: looking up 'one' binding raises [NexusPortBindingNotFound] when
    no row matches, raises [MultipleResultsFound] when more than one
    does, and returns the row exactly when one matches; the n1kv
    lookups of a network binding and of a policy binding do the same
    with their own not-found exceptions. *)
Theorem lookup_one_exactly_one (bfilter : kwargs) (db : DB) :
  Sa.with_session (_lookup_one_nexus_binding bfilter) db =
    match find bfilter db with
    | [] => (inl (NexusPortBindingNotFound bfilter), db)
    | [o] => (inr o, db)
    | _ :: _ :: _ => (inl MultipleResultsFound, db)
    end
  /\ (forall o,
        fst (Sa.with_session (_lookup_one_nexus_binding bfilter) db) = inr o
        <-> find bfilter db = [o])
  /\ (forall (ndb : n1kv_db.DB) network_id,
        n1kv_db.get_network_binding network_id ndb =
        match Sa.filter_by
                (fun r => Py.eqb (n1kv_models.N1kvNetworkBinding.network_id r)
                                 network_id)
                (Sa.rows (n1kv_db.network_bindings ndb)) with
        | [] => (inl (NetworkBindingNotFound network_id), ndb)
        | [o] => (inr o, ndb)
        | _ :: _ :: _ => (inl MultipleResultsFound, ndb)
        end)
  /\ (forall (ndb : n1kv_db.DB) port_id,
        Sa.with_session (n1kv_db.get_policy_binding port_id) ndb =
        match Sa.filter_by
                (fun r => Py.eqb (n1kv_models.N1kvPortBinding.port_id r)
                                 port_id)
                (Sa.rows (n1kv_db.port_bindings ndb)) with
        | [] => (inl (PortBindingNotFound port_id), ndb)
        | [o] => (inr o, ndb)
        | _ :: _ :: _ => (inl MultipleResultsFound, ndb)
        end).
Proof.
  assert (E : Sa.with_session (_lookup_one_nexus_binding bfilter) db =
    match find bfilter db with
    | [] => (inl (NexusPortBindingNotFound bfilter), db)
    | [o] => (inr o, db)
    | _ :: _ :: _ => (inl MultipleResultsFound, db)
    end).
  { unfold Sa.with_session. rewrite lookup_one_run. cbn.
    destruct (find bfilter db) as [|o [|o' l]]; reflexivity. }
  split; [exact E|]. split; [|split].
  - intros o. rewrite E.
    destruct (find bfilter db) as [|o1 [|o2 l]]; cbn; split; intros H;
      try discriminate; congruence.
  - intros ndb network_id.
    unfold n1kv_db.get_network_binding, Sa.with_session, try_except, bind,
      Sa.query. cbn.
    destruct (Sa.filter_by _ _) as [|o [|o' l]]; reflexivity.
  - intros ndb port_id.
    unfold n1kv_db.get_policy_binding, Sa.with_session, try_except, bind,
      Sa.query. cbn.
    destruct (Sa.filter_by _ _) as [|o [|o' l]]; reflexivity.
Qed.

(** C10: each NVE-binding query ending in [all()] returns the list of
    the matching rows, empty when there is none, and never [None]: its
    [NoResultFound] handler is never entered. *)
Theorem nve_all_queries_return_lists (vni switch_ip device_id : Py.value)
        (db : DB) :
  get_nve_vni_switch_bindings vni switch_ip db =
    (inr (Some (Sa.filter_by
                  (fun r => Py.eqb (NexusNVEBinding.vni r) vni
                            && Py.eqb (NexusNVEBinding.switch_ip r) switch_ip)
                  (nve_rows db))), db)
  /\ get_nve_vni_member_bindings vni switch_ip device_id db =
    (inr (Some (Sa.filter_by
                  (fun r => Py.eqb (NexusNVEBinding.vni r) vni
                            && Py.eqb (NexusNVEBinding.switch_ip r) switch_ip
                            && Py.eqb (NexusNVEBinding.device_id r) device_id)
                  (nve_rows db))), db)
  /\ get_nve_switch_bindings switch_ip db =
    (inr (Some (Sa.filter_by
                  (fun r => Py.eqb (NexusNVEBinding.switch_ip r) switch_ip)
                  (nve_rows db))), db)
  /\ get_nve_vni_deviceid_bindings vni device_id db =
    (inr (Some (Sa.filter_by
                  (fun r => Py.eqb (NexusNVEBinding.vni r) vni
                            && Py.eqb (NexusNVEBinding.device_id r) device_id)
                  (nve_rows db))), db)
  /\ fst (get_nve_vni_switch_bindings vni switch_ip empty) = inr (Some []).
Proof. repeat split. Qed.

End NexusLookups.

(** ** Lists *)

Lemma filter_twice {A : Type} (f g : A -> bool) (l : list A) :
  filter f (filter g l) = filter (fun x => g x && f x) l.
Proof.
  induction l as [|a l IH]; simpl; [reflexivity|].
  destruct (g a); simpl; [destruct (f a)|]; now rewrite IH.
Qed.

Lemma filter_all {A : Type} (f : A -> bool) (l : list A) :
  (forall x, In x l -> f x = true) -> filter f l = l.
Proof.
  induction l as [|a l IH]; simpl; intros H; [reflexivity|].
  rewrite (H a (or_introl eq_refl)). f_equal. apply IH. auto.
Qed.

Lemma filter_none {A : Type} (f : A -> bool) (l : list A) :
  (forall x, In x l -> f x = false) -> filter f l = [].
Proof.
  induction l as [|a l IH]; simpl; intros H; [reflexivity|].
  rewrite (H a (or_introl eq_refl)). apply IH. auto.
Qed.

Lemma NoDup_map_eq {A B : Type} (f : A -> B) (l : list A) (x y : A) :
  NoDup (map f l) -> In x l -> In y l -> f x = f y -> x = y.
Proof.
  induction l as [|a l IH]; simpl; intros ND Hx Hy E; [contradiction|].
  inversion ND as [|? ? Hnotin ND']; subst.
  destruct Hx as [->|Hx], Hy as [->|Hy].
  - reflexivity.
  - exfalso. apply Hnotin. rewrite E. now apply in_map.
  - exfalso. apply Hnotin. rewrite <- E. now apply in_map.
  - now apply IH.
Qed.

Lemma NoDup_map_filter {A B : Type} (g : A -> B) (f : A -> bool)
    (l : list A) :
  NoDup (map g l) -> NoDup (map g (filter f l)).
Proof.
  induction l as [|a l IH]; simpl; intros ND; [constructor|].
  inversion ND as [|? ? Hn ND']; subst.
  destruct (f a); simpl; [|now apply IH].
  constructor; [|now apply IH].
  intros Hin. apply Hn. apply in_map_iff in Hin.
  destruct Hin as [x [E Hx]]. apply filter_In in Hx.
  apply in_map_iff. exists x. tauto.
Qed.

(** ** Tables *)

Section Tables.
Context {Row : Type}.

Lemma wf_empty_table : Sa.wf_table (Sa.empty_table Row).
Proof. split; constructor. Qed.

Lemma wf_table_add (t : Sa.table Row) (r : Row) :
  Sa.wf_table t ->
  Sa.wf_table
    (Sa.Table (Sa.rows t ++ [Sa.Persistent (Sa.next_ident t) r])
              (S (Sa.next_ident t))).
Proof.
  intros [ND LT]. split; simpl.
  - rewrite map_app. simpl.
    apply NoDup_app; [exact ND | repeat constructor; intros [] | ].
    intros a Ha [<-|[]].
    apply in_map_iff in Ha. destruct Ha as [o [Ho Hin]].
    rewrite Forall_forall in LT. specialize (LT o Hin). lia.
  - apply Forall_app. split.
    + eapply Forall_impl; [|exact LT]. simpl. intros; lia.
    + constructor; [simpl; lia | constructor].
Qed.

Lemma wf_table_filter (t : Sa.table Row) (f : Sa.persistent Row -> bool) :
  Sa.wf_table t ->
  Sa.wf_table (Sa.Table (filter f (Sa.rows t)) (Sa.next_ident t)).
Proof.
  intros [ND LT]. split; simpl.
  - now apply NoDup_map_filter.
  - rewrite Forall_forall in *. intros o Ho. apply filter_In in Ho.
    apply LT. tauto.
Qed.

Lemma wf_table_map (t : Sa.table Row)
      (f : Sa.persistent Row -> Sa.persistent Row) :
  (forall o, Sa.ident (f o) = Sa.ident o) ->
  Sa.wf_table t ->
  Sa.wf_table (Sa.Table (map f (Sa.rows t)) (Sa.next_ident t)).
Proof.
  intros Hf [ND LT]. split; simpl.
  - rewrite map_map. erewrite map_ext; [exact ND|]. exact Hf.
  - rewrite Forall_forall in *. intros o Ho. apply in_map_iff in Ho.
    destruct Ho as [x [<- Hx]]. rewrite Hf. now apply LT.
Qed.
End Tables.

(** ** Nexus port bindings: the table under merge and delete *)

Section NexusTables.
Import nexus_models_v2 nexus_db_v2 BindingStore.
Import NexusPortBinding (column(..)).

Lemma merged_with_vlan (p v : Py.value) (db : DB) (o : binding) :
  Sa.wf_table (nexusport_bindings db) ->
  find [(Port_id, p)] db = [o] ->
  merged (Sa.Persistent (Sa.ident o)
            (NexusPortBinding.set_vlan_id (Sa.state o) v)) db
  = with_vlan p v db.
Proof.
  intros [ND _] F. unfold merged, with_vlan. f_equal. f_equal.
  apply map_ext_in. intros x Hx. simpl.
  assert (Ho : In o (port_rows db) /\
               matches [(Port_id, p)] (Sa.state o) = true).
  { apply find_In. rewrite F. now left. }
  destruct Ho as [Ho Mo].
  destruct (Nat.eqb_spec (Sa.ident x) (Sa.ident o)) as [E|NE].
  - assert (x = o) by exact (NoDup_map_eq _ _ x o ND Hx Ho E). subst x.
    unfold matches in Mo. simpl in Mo. rewrite andb_true_r in Mo.
    now rewrite Mo.
  - destruct (Py.eqb (NexusPortBinding.port_id (Sa.state x)) p) eqn:Mx;
      [|reflexivity].
    exfalso. apply NE.
    assert (In x (find [(Port_id, p)] db)).
    { apply find_In. split; [exact Hx|]. unfold matches. simpl.
      now rewrite Mx. }
    rewrite F in H. destruct H as [->|[]]. reflexivity.
Qed.

Lemma for_each_delete_run (l : list binding) (s : Sa.session DB) :
  for_each l (Sa.delete nexusport_bindings set_nexusport_bindings) s =
  (inr tt, Sa.Session (Sa.flushed s) (deleted l (Sa.pending s))).
Proof.
  revert s. induction l as [|o l IH]; intros [f p].
  - cbn. unfold ret. f_equal. f_equal. unfold deleted.
    rewrite filter_all by reflexivity.
    destruct p as [[r n] t]. reflexivity.
  - cbn [for_each]. unfold bind at 1. unfold Sa.delete at 1. cbn beta iota.
    rewrite IH. f_equal. unfold Sa.on_pending, deleted, port_rows. cbn.
    f_equal. unfold set_nexusport_bindings. cbn. f_equal. f_equal.
    rewrite filter_twice. apply filter_ext. intros x.
    now rewrite negb_orb.
Qed.

Lemma deleted_without (bfilter : kwargs) (db : DB) :
  Sa.wf_table (nexusport_bindings db) ->
  deleted (find bfilter db) db = without bfilter db.
Proof.
  intros [ND _]. unfold deleted, without. f_equal. f_equal.
  apply filter_ext_in. intros x Hx. f_equal.
  destruct (matches bfilter (Sa.state x)) eqn:Mx.
  - apply existsb_exists. exists x. split; [|apply Nat.eqb_refl].
    apply find_In. tauto.
  - destruct (existsb _ _) eqn:Ex; [|reflexivity].
    apply existsb_exists in Ex. destruct Ex as [o [Ho E]].
    apply Nat.eqb_eq in E. apply find_In in Ho. destruct Ho as [Ho Mo].
    assert (x = o) by exact (NoDup_map_eq _ _ x o ND Hx Ho E).
    subst x. congruence.
Qed.

Lemma find_without (bfilter : kwargs) (db : DB) :
  find bfilter (without bfilter db) = [].
Proof.
  unfold find, without, port_rows, Sa.filter_by. cbn.
  rewrite filter_twice.
  induction (Sa.rows (nexusport_bindings db)) as [|x l IH];
    [reflexivity|].
  simpl. destruct (matches bfilter (Sa.state x)); simpl; exact IH.
Qed.
End NexusTables.

(** ** Nexus port bindings: insert, update, delete *)

Section NexusMutations.
Import nexus_models_v2 nexus_db_v2 BindingStore.
Import NexusPortBinding (column(..)).

Variable admits : DB -> bool.

(** *** Insert *)

Lemma add_run (p v n s i b : Py.value) (db : DB) :
  add_nexusport_binding admits p v n s i b db =
  let r := NexusPortBinding.Build p v n s i b in
  if admits (with_row r db)
  then (inr (Sa.Persistent (Sa.next_ident (nexusport_bindings db)) r),
        with_row r db)
  else (inl DBError, db).
Proof.
  unfold add_nexusport_binding, Sa.with_session, Sa.add, Sa.flush, bind,
    with_row, port_rows.
  cbn. destruct (admits _); reflexivity.
Qed.

(** *** Update *)

Lemma update_run (p v : Py.value) (db : DB) :
  Py.truthy v = true ->
  update_nexusport_binding admits p v db =
  match find [(Port_id, p)] db with
  | [] => (inl (NexusPortBindingNotFound [(Port_id, p)]), db)
  | [o] =>
      let o' := Sa.Persistent (Sa.ident o)
                  (NexusPortBinding.set_vlan_id (Sa.state o) v) in
      if admits (merged o' db)
      then (inr (Some o'), merged o' db)
      else (inl DBError, db)
  | _ :: _ :: _ => (inl MultipleResultsFound, db)
  end.
Proof.
  intros T. unfold update_nexusport_binding. rewrite T. cbn [negb]. cbv beta iota.
  unfold Sa.with_session. unfold bind at 1. rewrite lookup_one_run.
  cbn [Sa.pending Sa.get_session].
  destruct (find [(Port_id, p)] db) as [|o [|o' l]]; try reflexivity.
  unfold merged, port_rows, bind, Sa.merge, Sa.flush. cbn.
  destruct (admits _); reflexivity.
Qed.

(** *** Delete *)

Lemma remove_run (p v n s i b : Py.value) (db : DB) :
  let bfilter := [(Vlan_id, v); (Vni, n); (Switch_ip, s); (Port_id, p);
                  (Instance_id, i); (Is_provider_vlan, b)] in
  remove_nexusport_binding admits p v n s i b db =
  match find bfilter db with
  | [] => (inl (NexusPortBindingNotFound bfilter), db)
  | o :: l =>
      if admits (deleted (o :: l) db)
      then (inr (o :: l), deleted (o :: l) db)
      else (inl DBError, db)
  end.
Proof.
  intros bfilter. unfold remove_nexusport_binding, Sa.with_session.
  unfold bind at 1. rewrite lookup_all_run. cbn [Sa.pending Sa.get_session].
  fold bfilter.
  destruct (find bfilter db) as [|o l]; [reflexivity|].
  unfold bind. rewrite for_each_delete_run. unfold Sa.flush. cbn.
  destruct (admits _); reflexivity.
Qed.

(** *** What an operation leaves behind *)

Lemma add_unchanged_or_admitted (p v n s i b : Py.value) (db : DB) :
  snd (add_nexusport_binding admits p v n s i b db) = db \/
  admits (snd (add_nexusport_binding admits p v n s i b db)) = true.
Proof.
  rewrite add_run. cbv zeta.
  destruct (admits (with_row _ db)) eqn:E; simpl; auto.
Qed.

Lemma remove_unchanged_or_admitted (p v n s i b : Py.value) (db : DB) :
  snd (remove_nexusport_binding admits p v n s i b db) = db \/
  admits (snd (remove_nexusport_binding admits p v n s i b db)) = true.
Proof.
  rewrite remove_run. cbv zeta.
  destruct (find _ db) as [|o l]; simpl; auto.
  destruct (admits (deleted _ db)) eqn:E; simpl; auto.
Qed.

Lemma update_unchanged_or_admitted (p v : Py.value) (db : DB) :
  snd (update_nexusport_binding admits p v db) = db \/
  admits (snd (update_nexusport_binding admits p v db)) = true.
Proof.
  destruct (Py.truthy v) eqn:T.
  - rewrite update_run by exact T.
    destruct (find _ db) as [|o [|o' l]]; simpl; auto.
    destruct (admits (merged _ db)) eqn:E; simpl; auto.
  - unfold update_nexusport_binding. rewrite T. simpl. auto.
Qed.

Lemma reachable_admitted (P : DB -> Prop) (db : DB) :
  P empty ->
  (forall d, admits d = true -> P d) ->
  reachable admits db -> P db.
Proof.
  intros P0 PA R. induction R.
  - exact P0.
  - destruct (add_unchanged_or_admitted p v n s i b db) as [->|A]; auto.
  - destruct (remove_unchanged_or_admitted p v n s i b db) as [->|A]; auto.
  - destruct (update_unchanged_or_admitted p v db) as [->|A]; auto.
Qed.

(** Identities stay distinct in every reachable database. *)
Lemma reachable_wf (db : DB) :
  reachable admits db -> Sa.wf_table (nexusport_bindings db).
Proof.
  intros R. induction R.
  - apply wf_empty_table.
  - rewrite add_run. cbv zeta. destruct (admits _); simpl; [|exact IHR].
    now apply wf_table_add.
  - rewrite remove_run. cbv zeta.
    destruct (find _ db) as [|o l]; simpl; [exact IHR|].
    destruct (admits _); simpl; [|exact IHR].
    now apply wf_table_filter.
  - destruct (Py.truthy v) eqn:T.
    + rewrite update_run by exact T.
      destruct (find _ db) as [|o [|o' l]]; simpl; try exact IHR.
      destruct (admits _); simpl; [|exact IHR].
      apply wf_table_map; [|exact IHR].
      intros x. simpl. destruct (Nat.eqb_spec (Sa.ident x) (Sa.ident o));
        simpl; congruence.
    + unfold update_nexusport_binding. rewrite T. simpl. exact IHR.
Qed.
End NexusMutations.

(** ** Key tuples *)

Section KeyTuples.
Import nexus_models_v2 nexus_db_v2 BindingStore.

Lemma key_eqb_eq (k1 k2 : Py.value * Py.value * Py.value) :
  key_eqb k1 k2 = true <-> k1 = k2.
Proof.
  destruct k1 as [[p1 v1] s1], k2 as [[p2 v2] s2]. unfold key_eqb.
  rewrite !andb_true_iff, !py_eqb_eq. split.
  - intros [[-> ->] ->]. reflexivity.
  - intros E. injection E as -> -> ->. auto.
Qed.

Lemma existsb_key_In k ks : existsb (key_eqb k) ks = true <-> In k ks.
Proof.
  rewrite existsb_exists. split.
  - intros [x [Hx E]]. apply key_eqb_eq in E. now subst.
  - intros H. exists k. split; [exact H|]. now apply key_eqb_eq.
Qed.

Lemma distinct_keys_NoDup ks : distinct_keys ks = true <-> NoDup ks.
Proof.
  induction ks as [|k ks IH]; simpl.
  - split; [constructor | reflexivity].
  - rewrite andb_true_iff, negb_true_iff, IH. split.
    + intros [E ND]. constructor; [|exact ND].
      intros Hin. apply existsb_key_In in Hin. congruence.
    + intros ND. inversion ND as [|? ? Hn ND']; subst. split; [|exact ND'].
      destruct (existsb (key_eqb k) ks) eqn:E; [|reflexivity].
      apply existsb_key_In in E. contradiction.
Qed.

Lemma key_tuple_unique_sound (db : DB) :
  key_tuple_unique db = true -> unique_keys db.
Proof. apply distinct_keys_NoDup. Qed.

Lemma key_tuple_unique_rejects (r : NexusPortBinding.t) (db : DB) :
  In (key_of (Sa.Persistent 0 r)) (map key_of (port_rows db)) ->
  key_tuple_unique (with_row r db) = false.
Proof.
  intros Hin. unfold key_tuple_unique.
  destruct (distinct_keys _) eqn:E; [|reflexivity].
  apply distinct_keys_NoDup in E. exfalso. revert E.
  unfold with_row, port_rows. cbn. rewrite map_app. cbn.
  intros ND. apply NoDup_remove_2 in ND. apply ND.
  rewrite app_nil_r. exact Hin.
Qed.
End KeyTuples.

(** ** The claims on insert, update and delete *)

Section NexusClaims.
Import nexus_models_v2 nexus_db_v2 BindingStore.
Import NexusPortBinding (column(..)).

(** C2 (as amended): [remove_nexusport_binding] removes every row
    matching its six-column filter and returns those rows when there is
    at least one and the table declaration admits the resulting table;
    when no row matches it raises [NexusPortBindingNotFound] and leaves
    the store as it was.  [remove_network_profile] is silent when no
    profile has the id. *)
Theorem remove_nexusport_binding_found_or_raises
        (admits : DB -> bool) (p v n s i b : Py.value) (db : DB) :
  Sa.wf_table (nexusport_bindings db) ->
  let bfilter := [(Vlan_id, v); (Vni, n); (Switch_ip, s); (Port_id, p);
                  (Instance_id, i); (Is_provider_vlan, b)] in
  remove_nexusport_binding admits p v n s i b db =
    match find bfilter db with
    | [] => (inl (NexusPortBindingNotFound bfilter), db)
    | o :: l =>
        if admits (without bfilter db)
        then (inr (o :: l), without bfilter db)
        else (inl DBError, db)
    end
  /\ find bfilter (without bfilter db) = []
  /\ forall (nadmits : n1kv_db.DB -> bool) (ndb : n1kv_db.DB) netp_id,
      Sa.filter_by (fun r => Py.eqb (n1kv_models.NetworkProfile.id r) netp_id)
                   (ProfileStore.profile_rows ndb) = [] ->
      Sa.with_session (n1kv_db.remove_network_profile nadmits netp_id) ndb
      = (inr tt, ndb).
Proof.
  intros WF bfilter. split; [|split].
  - pose proof (remove_run admits p v n s i b db) as R. cbv zeta in R.
    fold bfilter in R. rewrite R.
    destruct (find bfilter db) as [|o l] eqn:F; [reflexivity|].
    rewrite <- F, deleted_without by exact WF. reflexivity.
  - apply find_without.
  - intros nadmits ndb netp_id E.
    unfold Sa.with_session, n1kv_db.remove_network_profile, bind, Sa.query,
      Sa.first. cbn. unfold ProfileStore.profile_rows in E. rewrite E.
    reflexivity.
Qed.

(** C2 (as stated) fails: removing a binding from a store that has none
    raises instead of returning an empty set. *)
Lemma remove_absent_raises :
  fst (remove_nexusport_binding surrogate_key_only
         (Py.VStr "ethernet:1/10") (Py.VInt 100) Py.VNone
         (Py.VStr "1.1.1.1") (Py.VStr "vm1") (Py.VBool false) empty)
  = inl (NexusPortBindingNotFound
           [(Vlan_id, Py.VInt 100); (Vni, Py.VNone);
            (Switch_ip, Py.VStr "1.1.1.1");
            (Port_id, Py.VStr "ethernet:1/10");
            (Instance_id, Py.VStr "vm1");
            (Is_provider_vlan, Py.VBool false)])
  /\ fst (remove_nexusport_binding surrogate_key_only
            (Py.VStr "ethernet:1/10") (Py.VInt 100) Py.VNone
            (Py.VStr "1.1.1.1") (Py.VStr "vm1") (Py.VBool false) empty)
     <> inr [].
Proof. split; [reflexivity | discriminate]. Qed.

(** C3 (as amended): [add_nexusport_binding] makes no uniqueness check
    of its own.  It appends the row, visible to the next lookup, when
    the table declaration admits the resulting table, and otherwise
    fails with the database error and leaves the store as it was.  Under
    a declaration that makes (port_id, vlan_id, switch_ip) unique, an
    insert of an existing key tuple fails and every reachable store has
    distinct key tuples; under a declaration keyed on the row identity
    alone every insert succeeds. *)
Theorem add_nexusport_binding_defers_to_declaration
        (admits : DB -> bool) (p v n s i b : Py.value) (db : DB) :
  let r := NexusPortBinding.Build p v n s i b in
  let o := Sa.Persistent (Sa.next_ident (nexusport_bindings db)) r in
  add_nexusport_binding admits p v n s i b db =
    (if admits (with_row r db) then (inr o, with_row r db)
     else (inl DBError, db))
  /\ In o (find [(Port_id, p); (Vlan_id, v); (Switch_ip, s)] (with_row r db))
  /\ (In (p, v, s) (map key_of (port_rows db)) ->
      add_nexusport_binding key_tuple_unique p v n s i b db
      = (inl DBError, db))
  /\ add_nexusport_binding surrogate_key_only p v n s i b db
     = (inr o, with_row r db)
  /\ ((forall d, admits d = true -> unique_keys d) ->
      reachable admits db -> unique_keys db).
Proof.
  intros r o. split; [apply add_run|]. split; [|split; [|split]].
  - apply find_In. split.
    + unfold with_row, port_rows. cbn. apply in_or_app. right. now left.
    + unfold matches. cbn. now rewrite !py_eqb_refl.
  - intros Hin. rewrite add_run. cbv zeta.
    rewrite key_tuple_unique_rejects; [reflexivity | exact Hin].
  - rewrite add_run. reflexivity.
  - intros K R. apply (reachable_admitted admits unique_keys db).
    + constructor.
    + exact K.
    + exact R.
Qed.

(** C3 (as stated) fails: with a table keyed on the row identity alone,
    a second binding with the key tuple of an existing one is inserted
    without error, and the store then holds two rows with one key
    tuple. *)
Lemma add_existing_key_accepted :
  unique_keys one_binding
  /\ add_nexusport_binding surrogate_key_only
       (Py.VStr "ethernet:1/10") (Py.VInt 100) Py.VNone (Py.VStr "1.1.1.1")
       (Py.VStr "vm2") (Py.VBool false) one_binding
     = (inr (Sa.Persistent 1 (sample_row "vm2")), two_bindings)
  /\ ~ unique_keys two_bindings.
Proof.
  split; [|split].
  - apply key_tuple_unique_sound. reflexivity.
  - reflexivity.
  - intros ND. apply distinct_keys_NoDup in ND. discriminate ND.
Qed.

(** C5 (as amended): for a new vlan id that is truthy (neither [None]
    nor 0), [update_nexusport_binding] raises
    [NexusPortBindingNotFound] when the port has no binding, raises
    [MultipleResultsFound] when it has more than one, and when it has
    exactly one replaces that binding's vlan id, leaving every other
    row as it was, provided the table declaration admits the result; it
    never adds a row. *)
Theorem update_nexusport_binding_one_or_raises
        (admits : DB -> bool) (p v : Py.value) (db : DB) :
  Py.truthy v = true ->
  Sa.wf_table (nexusport_bindings db) ->
  update_nexusport_binding admits p v db =
    match find [(Port_id, p)] db with
    | [] => (inl (NexusPortBindingNotFound [(Port_id, p)]), db)
    | [o] =>
        if admits (with_vlan p v db)
        then (inr (Some (Sa.Persistent (Sa.ident o)
                           (NexusPortBinding.set_vlan_id (Sa.state o) v))),
              with_vlan p v db)
        else (inl DBError, db)
    | _ :: _ :: _ => (inl MultipleResultsFound, db)
    end
  /\ List.length (port_rows (snd (update_nexusport_binding admits p v db)))
     = List.length (port_rows db).
Proof.
  intros T WF.
  assert (E : update_nexusport_binding admits p v db =
    match find [(Port_id, p)] db with
    | [] => (inl (NexusPortBindingNotFound [(Port_id, p)]), db)
    | [o] =>
        if admits (with_vlan p v db)
        then (inr (Some (Sa.Persistent (Sa.ident o)
                           (NexusPortBinding.set_vlan_id (Sa.state o) v))),
              with_vlan p v db)
        else (inl DBError, db)
    | _ :: _ :: _ => (inl MultipleResultsFound, db)
    end).
  { rewrite (update_run admits) by exact T.
    destruct (find [(Port_id, p)] db) as [|o [|o' l]] eqn:F;
      try reflexivity.
    cbv zeta. rewrite (merged_with_vlan p v db o WF F). reflexivity. }
  split; [exact E|]. rewrite E.
  destruct (find [(Port_id, p)] db) as [|o [|o' l]]; try reflexivity.
  destruct (admits _); [|reflexivity].
  unfold with_vlan, port_rows. cbn. apply length_map.
Qed.

(** C5 (as stated) fails: vlan id 0 is not null, yet the update of a
    port without binding returns nothing and raises nothing; and a port
    with two bindings gets [MultipleResultsFound], not a replacement. *)
Lemma update_zero_vlan_or_two_bindings :
  update_nexusport_binding surrogate_key_only
    (Py.VStr "ethernet:1/10") (Py.VInt 0) empty = (inr None, empty)
  /\ update_nexusport_binding surrogate_key_only
       (Py.VStr "ethernet:1/10") (Py.VInt 200) two_bindings
     = (inl MultipleResultsFound, two_bindings).
Proof. split; reflexivity. Qed.

(** C9: with a falsy new vlan id ([None], 0) the update returns no
    binding, raises nothing and leaves the store as it was, whether or
    not the port has a binding. *)
Theorem update_nexusport_binding_falsy_vlan
        (admits : DB -> bool) (p v : Py.value) (db : DB) :
  Py.truthy v = false ->
  update_nexusport_binding admits p v db = (inr None, db).
Proof.
  intros T. unfold update_nexusport_binding. rewrite T. reflexivity.
Qed.
End NexusClaims.

(** ** n1kv: network bindings and profiles *)

Section N1kv.
Import n1kv_models n1kv_db ProfileStore.

Lemma add_network_binding_run (admits : DB -> bool)
      (network_id network_type segment_id netp_id : Py.value) (db : DB) :
  Sa.with_session
    (add_network_binding admits network_id network_type segment_id netp_id)
    db =
  let r := N1kvNetworkBinding.Build network_id network_type segment_id
                                    netp_id in
  if admits (with_network_binding r db)
  then (inr (Sa.Persistent (Sa.next_ident (network_bindings db)) r),
        with_network_binding r db)
  else (inl DBError, db).
Proof.
  unfold add_network_binding, Sa.with_session, Sa.add, Sa.flush, bind,
    with_network_binding.
  cbn. destruct (admits _); reflexivity.
Qed.

Lemma first_is_some_existsb {A : Type} (f : A -> bool) (l : list A) :
  Py.is_some (hd_error (filter f l)) = existsb f l.
Proof.
  induction l as [|a l IH]; simpl; [reflexivity|].
  destruct (f a); simpl; [reflexivity | exact IH].
Qed.

Lemma remove_network_profile_run (admits : DB -> bool) (netp_id : Py.value)
      (db : DB) :
  Sa.with_session (remove_network_profile admits netp_id) db =
  match profiles_with netp_id db with
  | [] => (inr tt, db)
  | o :: _ =>
      if admits (without_profile o db)
      then (inr tt, without_profile o db)
      else (inl DBError, db)
  end.
Proof.
  unfold Sa.with_session, remove_network_profile, bind, Sa.query,
    Sa.first, profiles_with, profile_rows. cbn.
  destruct (Sa.filter_by _ _) as [|o l]; [reflexivity|].
  unfold Sa.flush, without_profile, profile_rows. cbn.
  destruct (admits _); reflexivity.
Qed.

Lemma references_kept_spec (db : DB) (b : Sa.persistent N1kvNetworkBinding.t) :
  references_kept db = true ->
  In b (Sa.rows (network_bindings db)) ->
  exists p, In p (profile_rows db)
            /\ NetworkProfile.id (Sa.state p)
               = N1kvNetworkBinding.profile_id (Sa.state b).
Proof.
  unfold references_kept. rewrite forallb_forall. intros H Hb.
  specialize (H b Hb). apply existsb_exists in H.
  destruct H as (p & Hp & E). exists p. split; [exact Hp|].
  now apply py_eqb_eq.
Qed.

Lemma profiles_with_without (netp_id : Py.value) (db : DB)
      (o : Sa.persistent NetworkProfile.t) :
  profiles_with netp_id db = [o] ->
  profiles_with netp_id (without_profile o db) = [].
Proof.
  intros P. unfold profiles_with, without_profile, profile_rows,
    Sa.filter_by in *. cbn. rewrite filter_twice.
  induction (Sa.rows (network_profiles db)) as [|x l IH];
    [reflexivity|].
  cbn in P |- *.
  destruct (Py.eqb (NetworkProfile.id (Sa.state x)) netp_id) eqn:E.
  - injection P as -> P. rewrite Nat.eqb_refl. cbn.
    clear IH. induction l as [|y l IH]; [reflexivity|].
    cbn in P |- *.
    destruct (Py.eqb (NetworkProfile.id (Sa.state y)) netp_id);
      [discriminate|].
    rewrite andb_false_r. now apply IH.
  - rewrite andb_false_r. now apply IH.
Qed.

(** With the foreign key declared, the flush that would delete the only
    profile of an id some network binding names is rejected. *)
Lemma delete_referenced_rejected (admits : DB -> bool) (netp_id : Py.value)
      (db : DB) (o : Sa.persistent NetworkProfile.t) :
  (forall d, admits d = true -> references_kept d = true) ->
  profiles_with netp_id db = [o] ->
  network_profile_referenced netp_id db = true ->
  Sa.with_session (remove_network_profile admits netp_id) db
  = (inl DBError, db).
Proof.
  intros FK P R. rewrite remove_network_profile_run, P.
  destruct (admits (without_profile o db)) eqn:A; [|reflexivity].
  exfalso. apply FK in A.
  unfold network_profile_referenced in R. apply existsb_exists in R.
  destruct R as (b & Hb & E). apply py_eqb_eq in E.
  destruct (references_kept_spec (without_profile o db) b A Hb)
    as (p & Hp & Ep).
  assert (Hin : In p (profiles_with netp_id (without_profile o db))).
  { apply filter_In. split; [exact Hp|]. apply py_eqb_eq. congruence. }
  rewrite (profiles_with_without netp_id db o P) in Hin. destruct Hin.
Qed.


End N1kv.

(** ** Creating a binding twice *)

Section Twice.
Import nexus_models_v2 nexus_db_v2 BindingStore.

Lemma with_row_changes (r : NexusPortBinding.t) (db : DB) :
  with_row r db <> db.
Proof.
  intros E. apply (f_equal (fun d => List.length (port_rows d))) in E.
  unfold with_row, port_rows in E. cbn in E.
  rewrite length_app in E. simpl in E. lia.
Qed.

Lemma with_network_binding_changes
      (r : n1kv_models.N1kvNetworkBinding.t) (db : n1kv_db.DB) :
  ProfileStore.with_network_binding r db <> db.
Proof.
  intros E.
  apply (f_equal (fun d => List.length (Sa.rows (n1kv_db.network_bindings d))))
    in E.
  unfold ProfileStore.with_network_binding in E. cbn in E.
  rewrite length_app in E. simpl in E. lia.
Qed.

(** C7 (as amended): creating a binding is not idempotent.  After
    [add_nexusport_binding] has succeeded, the same call again either
    fails with the database error, leaving the store as it was, or
    succeeds and appends a second row with the same column values under
    a new identity; it never both succeeds and leaves the store
    unchanged.  [add_network_binding] behaves the same way. *)
Theorem binding_creation_not_idempotent
        (admits : DB -> bool) (p v n s i b : Py.value) (db db1 : DB)
        (o1 : binding) :
  add_nexusport_binding admits p v n s i b db = (inr o1, db1) ->
  let r := NexusPortBinding.Build p v n s i b in
  (add_nexusport_binding admits p v n s i b db1 = (inl DBError, db1)
   \/ exists o2,
       add_nexusport_binding admits p v n s i b db1
       = (inr o2, with_row r db1)
       /\ Sa.state o2 = Sa.state o1
       /\ Sa.ident o2 <> Sa.ident o1
       /\ port_rows (with_row r db1) = port_rows db1 ++ [o2]
       /\ with_row r db1 <> db1)
  /\ forall (nadmits : n1kv_db.DB -> bool)
            (nid nt seg np : Py.value) (ndb ndb1 : n1kv_db.DB) no1,
      Sa.with_session (n1kv_db.add_network_binding nadmits nid nt seg np)
                      ndb = (inr no1, ndb1) ->
      let nr := n1kv_models.N1kvNetworkBinding.Build nid nt seg np in
      Sa.with_session (n1kv_db.add_network_binding nadmits nid nt seg np)
                      ndb1 = (inl DBError, ndb1)
      \/ exists no2,
          Sa.with_session (n1kv_db.add_network_binding nadmits nid nt seg np)
                          ndb1
          = (inr no2, ProfileStore.with_network_binding nr ndb1)
          /\ Sa.state no2 = Sa.state no1
          /\ Sa.ident no2 <> Sa.ident no1
          /\ ProfileStore.with_network_binding nr ndb1 <> ndb1.
Proof.
  intros H r. split.
  - rewrite add_run in H. cbv zeta in H. fold r in H.
    destruct (admits (with_row r db)) eqn:A; [|discriminate].
    injection H as <- <-.
    rewrite add_run. cbv zeta. fold r.
    destruct (admits (with_row r (with_row r db))) eqn:A2;
      [right | left; reflexivity].
    eexists. split; [reflexivity|].
    split; [reflexivity|]. split; [cbn; lia|].
    split; [reflexivity | apply with_row_changes].
  - intros nadmits nid nt seg np ndb ndb1 no1 Hn nr.
    rewrite add_network_binding_run in Hn. cbv zeta in Hn. fold nr in Hn.
    destruct (nadmits (ProfileStore.with_network_binding nr ndb)) eqn:A;
      [|discriminate].
    injection Hn as <- <-.
    rewrite add_network_binding_run. cbv zeta. fold nr.
    destruct (nadmits (ProfileStore.with_network_binding nr
                (ProfileStore.with_network_binding nr ndb))) eqn:A2;
      [right | left; reflexivity].
    eexists. split; [reflexivity|].
    split; [reflexivity|]. split; [cbn; lia|].
    apply with_network_binding_changes.
Qed.

(** C7 (as stated) fails: on a table keyed on the row identity alone
    the second identical call inserts a second row; on a table whose
    key tuple is declared unique it raises. *)
Lemma second_add_changes_or_raises :
  add_nexusport_binding surrogate_key_only
    (Py.VStr "ethernet:1/10") (Py.VInt 100) Py.VNone (Py.VStr "1.1.1.1")
    (Py.VStr "vm1") (Py.VBool false) empty
  = (inr (Sa.Persistent 0 (sample_row "vm1")), one_binding)
  /\ snd (add_nexusport_binding surrogate_key_only
            (Py.VStr "ethernet:1/10") (Py.VInt 100) Py.VNone
            (Py.VStr "1.1.1.1") (Py.VStr "vm1") (Py.VBool false)
            one_binding) <> one_binding
  /\ add_nexusport_binding key_tuple_unique
       (Py.VStr "ethernet:1/10") (Py.VInt 100) Py.VNone (Py.VStr "1.1.1.1")
       (Py.VStr "vm1") (Py.VBool false) empty
     = (inr (Sa.Persistent 0 (sample_row "vm1")), one_binding)
  /\ fst (add_nexusport_binding key_tuple_unique
            (Py.VStr "ethernet:1/10") (Py.VInt 100) Py.VNone
            (Py.VStr "1.1.1.1") (Py.VStr "vm1") (Py.VBool false)
            one_binding) = inl DBError.
Proof.
  split; [reflexivity|]. split; [|split; reflexivity].
  rewrite add_run. cbn. discriminate.
Qed.
End Twice.

(** ** Loops *)

Lemma for_each_cons {S A : Type} (x : A) (l : list A) (f : A -> M S unit)
      (s : S) :
  for_each (x :: l) f s
  = match for_each [x] f s with
    | (inr _, s') => for_each l f s'
    | (inl e, s') => (inl e, s')
    end.
Proof.
  cbn [for_each]. unfold bind, ret.
  destruct (f x s) as [[e|[]] s']; reflexivity.
Qed.

(** ** The cfg-agent notifier *)

Section Notifier.
Import l3_router_rpc_joint_agent_api.

Variable context : Type.
Variable is_admin : context -> bool.
Variable elevated : context -> context.
Variable plugin : Type.
Variable get_cfg_agents_for_hosting_devices :
  context -> list Py.value -> M plugin (list agent).

Local Abbreviation notify :=
  (_agent_notification is_admin elevated get_cfg_agents_for_hosting_devices).

Lemma notify_cons_none (ctx : context) (method : string)
      (r : router_dict) (routers : list router_dict)
      (operation data : Py.value) (w : world context plugin) :
  hosting_device r = None ->
  notify ctx method (r :: routers) operation data w
  = notify ctx method routers operation data w.
Proof.
  intros H. unfold _agent_notification. cbn [for_each].
  rewrite H. reflexivity.
Qed.

Lemma notify_cons (ctx : context) (method : string)
      (r : router_dict) (routers : list router_dict)
      (operation data : Py.value) (w : world context plugin) :
  notify ctx method (r :: routers) operation data w
  = match notify ctx method [r] operation data w with
    | (inr _, w') => notify ctx method routers operation data w'
    | (inl e, w') => (inl e, w')
    end.
Proof.
  unfold _agent_notification. apply for_each_cons.
Qed.

Lemma notify_skips_none (ctx : context) (method : string)
      (before after : list router_dict) (r : router_dict)
      (operation data : Py.value) (w : world context plugin) :
  hosting_device r = None ->
  notify ctx method (before ++ r :: after) operation data w
  = notify ctx method (before ++ after) operation data w.
Proof.
  intros H. revert w. induction before as [|x l IH]; intros w.
  - simpl. now apply notify_cons_none.
  - simpl. rewrite (notify_cons ctx method x (l ++ r :: after)).
    rewrite (notify_cons ctx method x (l ++ after)).
    destruct (notify ctx method [x] operation data w) as [[e|u] w'];
      [reflexivity | apply IH].
Qed.

(** C8: a dispatch without targets does nothing.  A router with no
    hosting device is skipped: the notification is the one sent without
    it, and when no router has a hosting device nothing is cast and the
    plugin is not asked.  A router whose hosting device has no cfg agent
    causes no cast.  [routers_updated] with no routers and
    [hosting_devices_removed] with empty or missing hosting data leave
    everything as it was. *)
Theorem dispatch_without_targets_is_noop
        (ctx : context) (method : string) (operation data : Py.value)
        (w : world context plugin) :
  (forall before r after,
      hosting_device r = None ->
      notify ctx method (before ++ r :: after) operation data w
      = notify ctx method (before ++ after) operation data w)
  /\ (forall routers,
        Forall (fun r => hosting_device r = None) routers ->
        notify ctx method routers operation data w = (inr tt, w))
  /\ (forall r hd p',
        hosting_device r = Some hd ->
        get_cfg_agents_for_hosting_devices
          (if is_admin ctx then ctx else elevated ctx) [hd_id hd]
          (_l3plugin w) = (inr [], p') ->
        notify ctx method [r] operation data w
        = (inr tt, World p' (client w)))
  /\ routers_updated is_admin elevated get_cfg_agents_for_hosting_devices
       ctx [] operation data w = (inr tt, w)
  /\ (forall hosting_data deconfigure host,
        hosting_data_truth hosting_data = false ->
        hosting_devices_removed ctx hosting_data deconfigure host w
        = (inr tt, w))
  /\ (forall deconfigure host,
        hosting_devices_removed ctx (Some []) deconfigure host w = (inr tt, w)
        /\ hosting_devices_removed ctx None deconfigure host w = (inr tt, w)).
Proof.
  split; [|split; [|split; [|split; [|split]]]].
  - intros before r after H. now apply notify_skips_none.
  - intros routers H. induction H as [|r l Hr Hl IH]; [reflexivity|].
    rewrite notify_cons_none by exact Hr. exact IH.
  - intros r hd p' Hr Ha. unfold _agent_notification. cbn [for_each].
    rewrite Hr. unfold bind, call_plugin. rewrite Ha. reflexivity.
  - reflexivity.
  - intros hosting_data deconfigure host H.
    unfold hosting_devices_removed. rewrite H. reflexivity.
  - intros deconfigure host. split; reflexivity.
Qed.

(** With a hosting device and one cfg agent for it, the router is cast to
    that agent's host, under the caller's context. *)
Lemma notify_router_with_agent (ctx : context) (method : string)
      (rid hd host_ kind operation data : Py.value) (p' : plugin)
      (w : world context plugin) :
  get_cfg_agents_for_hosting_devices
    (if is_admin ctx then ctx else elevated ctx) [hd] (_l3plugin w)
  = (inr [Agent kind host_], p') ->
  notify ctx method [Router rid (Some (HostingDevice hd))] operation data w
  = (inr tt,
     World p' (client w ++ [Cast CFG_AGENT_L3_ROUTING host_ ctx method
                                 (routers_kw [rid])])).
Proof.
  intros H. unfold _agent_notification. cbn [for_each hosting_device hd_id].
  unfold bind, call_plugin. rewrite H. reflexivity.
Qed.
End Notifier.

(** ** The theorems at sample inputs *)

Section Samples.
Import nexus_models_v2 nexus_db_v2 BindingStore.
Import NexusPortBinding (column(..)).

Lemma wf_one_binding : Sa.wf_table (nexusport_bindings one_binding).
Proof. exact (wf_table_add _ (sample_row "vm1") wf_empty_table). Qed.

Lemma wf_two_bindings : Sa.wf_table (nexusport_bindings two_bindings).
Proof. exact (wf_table_add _ (sample_row "vm2") wf_one_binding). Qed.

(** Removing the binding of vm1 from the two sample bindings. *)
Lemma remove_nexusport_binding_found_or_raises_witness :
  Sa.wf_table (nexusport_bindings two_bindings)
  /\ remove_nexusport_binding surrogate_key_only
       (Py.VStr "ethernet:1/10") (Py.VInt 100) Py.VNone (Py.VStr "1.1.1.1")
       (Py.VStr "vm1") (Py.VBool false) two_bindings
     = (inr [Sa.Persistent 0 (sample_row "vm1")],
        Database (Sa.Table [Sa.Persistent 1 (sample_row "vm2")] 2)
                 (Sa.empty_table _))
  /\ Sa.with_session
       (n1kv_db.remove_network_profile ProfileStore.unconstrained
                                       (Py.VStr "np-2"))
       ProfileStore.profile_in_use
     = (inr tt, ProfileStore.profile_in_use).
Proof.
  split; [exact wf_two_bindings|].
  destruct (remove_nexusport_binding_found_or_raises
              surrogate_key_only
              (Py.VStr "ethernet:1/10") (Py.VInt 100) Py.VNone
              (Py.VStr "1.1.1.1") (Py.VStr "vm1") (Py.VBool false)
              two_bindings wf_two_bindings) as (Removed & _ & Absent).
  split; [exact Removed|].
  apply Absent. reflexivity.
Defined.

(** Inserting the key tuple of the sample binding once more, on a table
    that declares the tuple unique. *)
Lemma add_nexusport_binding_defers_to_declaration_witness :
  In (Py.VStr "ethernet:1/10", Py.VInt 100, Py.VStr "1.1.1.1")
     (map key_of (port_rows one_binding))
  /\ add_nexusport_binding key_tuple_unique
       (Py.VStr "ethernet:1/10") (Py.VInt 100) Py.VNone (Py.VStr "1.1.1.1")
       (Py.VStr "vm2") (Py.VBool false) one_binding
     = (inl DBError, one_binding)
  /\ reachable key_tuple_unique one_binding
  /\ unique_keys one_binding.
Proof.
  assert (R : reachable key_tuple_unique one_binding).
  { exact (@reach_add key_tuple_unique empty
             (Py.VStr "ethernet:1/10") (Py.VInt 100) Py.VNone
             (Py.VStr "1.1.1.1") (Py.VStr "vm1") (Py.VBool false)
             (@reach_empty key_tuple_unique)). }
  destruct (add_nexusport_binding_defers_to_declaration
              key_tuple_unique
              (Py.VStr "ethernet:1/10") (Py.VInt 100) Py.VNone
              (Py.VStr "1.1.1.1") (Py.VStr "vm2") (Py.VBool false)
              one_binding) as (_ & _ & Dup & _ & Inv).
  assert (Hin : In (Py.VStr "ethernet:1/10", Py.VInt 100, Py.VStr "1.1.1.1")
                   (map key_of (port_rows one_binding))).
  { simpl. left. reflexivity. }
  split; [exact Hin|]. split; [exact (Dup Hin)|]. split; [exact R|].
  exact (Inv key_tuple_unique_sound R).
Defined.

(** Moving the sample binding to vlan 200. *)
Lemma update_nexusport_binding_one_or_raises_witness :
  Py.truthy (Py.VInt 200) = true
  /\ Sa.wf_table (nexusport_bindings one_binding)
  /\ update_nexusport_binding surrogate_key_only
       (Py.VStr "ethernet:1/10") (Py.VInt 200) one_binding
     = (inr (Some (Sa.Persistent 0
                     (NexusPortBinding.set_vlan_id (sample_row "vm1")
                                                   (Py.VInt 200)))),
        with_vlan (Py.VStr "ethernet:1/10") (Py.VInt 200) one_binding).
Proof.
  split; [reflexivity|]. split; [exact wf_one_binding|].
  exact (proj1 (update_nexusport_binding_one_or_raises
                  surrogate_key_only (Py.VStr "ethernet:1/10")
                  (Py.VInt 200) one_binding eq_refl wf_one_binding)).
Defined.

(** Creating the sample binding twice. *)
Lemma binding_creation_not_idempotent_witness :
  add_nexusport_binding surrogate_key_only
    (Py.VStr "ethernet:1/10") (Py.VInt 100) Py.VNone (Py.VStr "1.1.1.1")
    (Py.VStr "vm1") (Py.VBool false) empty
  = (inr (Sa.Persistent 0 (sample_row "vm1")), one_binding)
  /\ (add_nexusport_binding surrogate_key_only
        (Py.VStr "ethernet:1/10") (Py.VInt 100) Py.VNone (Py.VStr "1.1.1.1")
        (Py.VStr "vm1") (Py.VBool false) one_binding
      = (inl DBError, one_binding)
      \/ exists o2,
          add_nexusport_binding surrogate_key_only
            (Py.VStr "ethernet:1/10") (Py.VInt 100) Py.VNone
            (Py.VStr "1.1.1.1") (Py.VStr "vm1") (Py.VBool false) one_binding
          = (inr o2, with_row (sample_row "vm1") one_binding)
          /\ Sa.state o2 = sample_row "vm1"
          /\ Sa.ident o2 <> 0
          /\ port_rows (with_row (sample_row "vm1") one_binding)
             = port_rows one_binding ++ [o2]
          /\ with_row (sample_row "vm1") one_binding <> one_binding).
Proof.
  split; [reflexivity|].
  exact (proj1 (binding_creation_not_idempotent
                  surrogate_key_only
                  (Py.VStr "ethernet:1/10") (Py.VInt 100) Py.VNone
                  (Py.VStr "1.1.1.1") (Py.VStr "vm1") (Py.VBool false)
                  empty one_binding
                  (Sa.Persistent 0 (sample_row "vm1")) eq_refl)).
Defined.

(** Updating with vlan 0, and with no vlan. *)
Lemma update_nexusport_binding_falsy_vlan_witness :
  Py.truthy (Py.VInt 0) = false
  /\ Py.truthy Py.VNone = false
  /\ update_nexusport_binding surrogate_key_only
       (Py.VStr "ethernet:1/10") (Py.VInt 0) one_binding
     = (inr None, one_binding)
  /\ update_nexusport_binding surrogate_key_only
       (Py.VStr "ethernet:1/11") Py.VNone one_binding
     = (inr None, one_binding).
Proof.
  split; [reflexivity|]. split; [reflexivity|]. split.
  - exact (update_nexusport_binding_falsy_vlan
             surrogate_key_only (Py.VStr "ethernet:1/10") (Py.VInt 0)
             one_binding eq_refl).
  - exact (update_nexusport_binding_falsy_vlan
             surrogate_key_only (Py.VStr "ethernet:1/11") Py.VNone
             one_binding eq_refl).
Defined.
End Samples.

Section NotifierSample.
Import l3_router_rpc_joint_agent_api.

(** A router that no hosting device serves yet, with a plugin that
    knows one agent for every hosting device. *)
Lemma dispatch_without_targets_is_noop_witness :
  hosting_device (Router (Py.VStr "router-1") None) = None
  /\ _agent_notification
       (fun admin : bool => admin) (fun _ => true)
       (fun _ _ (p : nat) =>
          (inr [Agent (Py.VStr "cfg") (Py.VStr "host-1")], S p))
       false "routers_updated"
       [Router (Py.VStr "router-1") None] Py.VNone Py.VNone
       (World 0 [])
     = (inr tt, World 0 []).
Proof.
  split; [reflexivity|].
  destruct (dispatch_without_targets_is_noop
              bool (fun admin : bool => admin) (fun _ => true) nat
              (fun _ _ (p : nat) =>
                 (inr [Agent (Py.VStr "cfg") (Py.VStr "host-1")], S p))
              false "routers_updated" Py.VNone Py.VNone (World 0 []))
    as (_ & NoDevice & _).
  apply NoDevice. constructor; [reflexivity | constructor].
Defined.
End NotifierSample.

(** * Further properties *)

(** ** Nexus port bindings: how lookups and mutations compose *)

Section NexusCompose.
Import nexus_models_v2 nexus_db_v2 BindingStore.
Import NexusPortBinding (column(..)).

Lemma lookup_all_nonempty (bfilter : kwargs) (db : DB) (l : list binding) :
  find bfilter db = l -> l <> [] ->
  Sa.with_session (_lookup_all_nexus_bindings bfilter) db = (inr l, db).
Proof.
  intros <- H. rewrite lookup_all_call.
  destruct (find bfilter db); [contradiction | reflexivity].
Qed.

Lemma lookup_all_inv (bfilter : kwargs) (db db' : DB) (l : list binding) :
  Sa.with_session (_lookup_all_nexus_bindings bfilter) db = (inr l, db') ->
  find bfilter db = l /\ l <> [] /\ db' = db.
Proof.
  rewrite lookup_all_call. destruct (find bfilter db) as [|o l'].
  - discriminate.
  - intros E. injection E as <- <-. repeat split. discriminate.
Qed.

Lemma matches_weaken (f g : kwargs) (r : NexusPortBinding.t) :
  incl g f -> matches f r = true -> matches g r = true.
Proof.
  rewrite !matches_spec. intros I H c v Hin. apply H, I, Hin.
Qed.

Lemma find_weaken (f g : kwargs) (db : DB) :
  incl g f -> incl (find f db) (find g db).
Proof.
  intros I o Ho. apply find_In in Ho. apply find_In.
  split; [tauto|]. eapply matches_weaken; [exact I | tauto].
Qed.

Lemma find_with_row (g : kwargs) (r : NexusPortBinding.t) (db : DB) :
  find g (with_row r db) =
  find g db ++
  (if matches g r
   then [Sa.Persistent (Sa.next_ident (nexusport_bindings db)) r] else []).
Proof.
  unfold find, with_row, port_rows, Sa.filter_by. cbn.
  rewrite filter_app. cbn. destruct (matches g r); reflexivity.
Qed.

Lemma find_without_other (f g : kwargs) (db : DB) :
  find g (without f db) =
  filter (fun o => negb (matches f (Sa.state o))) (find g db).
Proof.
  unfold find, without, port_rows, Sa.filter_by. cbn.
  rewrite !filter_twice. apply filter_ext. intros o. apply andb_comm.
Qed.

(** The 'first' lookup raises [NexusPortBindingNotFound] when no row
    matches the filter and otherwise returns one of the matching rows,
    the one the database hands back first; it never returns [None]. *)
Theorem lookup_first_returns_a_match
        (scan : @Sa.Query NexusPortBinding.t -> Sa.Query)
        (bfilter : kwargs) (db : DB) :
  (forall q o, In o (scan q) <-> In o q) ->
  (find bfilter db = [] ->
   Sa.with_session (_lookup_first_nexus_binding scan bfilter) db
   = (inl (NexusPortBindingNotFound bfilter), db))
  /\ (find bfilter db <> [] ->
      exists o,
        Sa.with_session (_lookup_first_nexus_binding scan bfilter) db
        = (inr (Some o), db)
        /\ In o (port_rows db)
        /\ matches bfilter (Sa.state o) = true)
  /\ fst (Sa.with_session (_lookup_first_nexus_binding scan bfilter) db)
     <> inr None.
Proof.
  intros Scan.
  assert (E : Sa.with_session (_lookup_first_nexus_binding scan bfilter) db =
    match scan (find bfilter db) with
    | [] => (inl (NexusPortBindingNotFound bfilter), db)
    | o :: _ => (inr (Some o), db)
    end).
  { unfold Sa.with_session, _lookup_first_nexus_binding,
      _lookup_nexus_bindings, Sa.query, bind, try_except, find, port_rows.
    cbn. destruct (scan _); reflexivity. }
  rewrite E. split; [|split].
  - intros F.
    destruct (scan (find bfilter db)) as [|o l] eqn:S; [reflexivity|].
    exfalso.
    assert (Ho : In o (find bfilter db)).
    { apply (proj1 (Scan (find bfilter db) o)). rewrite S. now left. }
    rewrite F in Ho. destruct Ho.
  - intros F.
    destruct (scan (find bfilter db)) as [|o l] eqn:S.
    + exfalso. destruct (find bfilter db) as [|x l] eqn:Fx; [now apply F|].
      assert (Hx : In x (scan (x :: l))).
      { apply (proj2 (Scan (x :: l) x)). now left. }
      rewrite S in Hx. destruct Hx.
    + exists o. split; [reflexivity|]. apply find_In.
      apply (proj1 (Scan (find bfilter db) o)). rewrite S. now left.
  - destruct (scan (find bfilter db)); discriminate.
Qed.

(** When the lookup on port, vlan, switch and instance finds rows, each
    lookup on fewer of these columns finds them too: all its rows are
    among theirs. *)
Theorem narrower_lookup_within_wider
        (p v s i : Py.value) (db db' : DB) (l : list binding) :
  get_nexusport_binding p v s i db = (inr l, db') ->
  exists l1 l2 l3 l4 l5,
    get_port_vlan_switch_binding p v s db = (inr l1, db) /\ incl l l1
    /\ get_nexusvlan_binding v s db = (inr l2, db) /\ incl l1 l2
    /\ get_nexusport_switch_bindings s db = (inr l3, db) /\ incl l2 l3
    /\ get_port_switch_bindings p s db = (inr (Some l4), db) /\ incl l1 l4
    /\ get_nexusvm_bindings v i db = (inr l5, db) /\ incl l l5.
Proof.
  intros H. apply lookup_all_inv in H. destruct H as (F & NE & ->).
  set (f := [(Port_id, p); (Vlan_id, v); (Switch_ip, s); (Instance_id, i)])
    in *.
  destruct l as [|o l]; [contradiction|].
  assert (W : forall g, incl g f ->
                        incl (o :: l) (find g db) /\ find g db <> []).
  { intros g I. rewrite <- F. split; [now apply find_weaken|].
    pose proof (find_weaken f g db I o) as Ho. rewrite F in Ho.
    specialize (Ho (or_introl eq_refl)). intros E. rewrite E in Ho.
    destruct Ho. }
  assert (I1 : incl [(Port_id, p); (Switch_ip, s); (Vlan_id, v)] f).
  { intros x [<-|[<-|[<-|[]]]]; simpl; auto. }
  assert (I2 : incl [(Vlan_id, v); (Switch_ip, s)] f).
  { intros x [<-|[<-|[]]]; simpl; auto. }
  assert (I3 : incl [(Switch_ip, s)] f).
  { intros x [<-|[]]; simpl; auto. }
  assert (I4 : incl [(Port_id, p); (Switch_ip, s)] f).
  { intros x [<-|[<-|[]]]; simpl; auto. }
  assert (I5 : incl [(Instance_id, i); (Vlan_id, v)] f).
  { intros x [<-|[<-|[]]]; simpl; auto. }
  exists (find [(Port_id, p); (Switch_ip, s); (Vlan_id, v)] db),
         (find [(Vlan_id, v); (Switch_ip, s)] db),
         (find [(Switch_ip, s)] db),
         (find [(Port_id, p); (Switch_ip, s)] db),
         (find [(Instance_id, i); (Vlan_id, v)] db).
  repeat split.
  - apply lookup_all_nonempty; [reflexivity | apply (W _ I1)].
  - apply (W _ I1).
  - apply lookup_all_nonempty; [reflexivity | apply (W _ I2)].
  - apply find_weaken. intros x [<-|[<-|[]]]; simpl; auto.
  - apply lookup_all_nonempty; [reflexivity | apply (W _ I3)].
  - apply find_weaken. intros x [<-|[]]; simpl; auto.
  - unfold get_port_switch_bindings, try_except, bind.
    rewrite (lookup_all_nonempty _ db _ eq_refl (proj2 (W _ I4))).
    reflexivity.
  - apply find_weaken. intros x [<-|[<-|[]]]; simpl; auto.
  - apply lookup_all_nonempty; [reflexivity | apply (W _ I5)].
  - apply (W _ I5).
Qed.
End NexusCompose.

Section NexusRoundTrips.
Import nexus_models_v2 nexus_db_v2 BindingStore.
Import NexusPortBinding (column(..)).

Lemma add_inv (admits : DB -> bool) (p v n s i b : Py.value)
      (db db1 : DB) (o : binding) :
  add_nexusport_binding admits p v n s i b db = (inr o, db1) ->
  let r := NexusPortBinding.Build p v n s i b in
  admits (with_row r db) = true
  /\ o = Sa.Persistent (Sa.next_ident (nexusport_bindings db)) r
  /\ db1 = with_row r db.
Proof.
  intros H r. rewrite add_run in H. cbv zeta in H. fold r in H.
  destruct (admits (with_row r db)); [|discriminate].
  injection H as <- <-. auto.
Qed.

Lemma remove_inv (admits : DB -> bool) (p v n s i b : Py.value)
      (db db1 : DB) (l : list binding) :
  Sa.wf_table (nexusport_bindings db) ->
  remove_nexusport_binding admits p v n s i b db = (inr l, db1) ->
  let bfilter := [(Vlan_id, v); (Vni, n); (Switch_ip, s); (Port_id, p);
                  (Instance_id, i); (Is_provider_vlan, b)] in
  find bfilter db = l /\ l <> [] /\ db1 = without bfilter db
  /\ admits db1 = true.
Proof.
  intros WF H bfilter. rewrite remove_run in H. cbv zeta in H.
  fold bfilter in H.
  destruct (find bfilter db) as [|o l'] eqn:F; [discriminate|].
  rewrite <- F, deleted_without in H by exact WF.
  destruct (admits (without bfilter db)) eqn:A; [|discriminate].
  injection H as <- <-. rewrite F. repeat split; try assumption.
  discriminate.
Qed.

Lemma remove_found (admits : DB -> bool) (p v n s i b : Py.value)
      (db : DB) (o : binding) (l : list binding) :
  Sa.wf_table (nexusport_bindings db) ->
  let bfilter := [(Vlan_id, v); (Vni, n); (Switch_ip, s); (Port_id, p);
                  (Instance_id, i); (Is_provider_vlan, b)] in
  find bfilter db = o :: l ->
  remove_nexusport_binding admits p v n s i b db =
  if admits (without bfilter db) then (inr (o :: l), without bfilter db)
  else (inl DBError, db).
Proof.
  intros WF bfilter F. rewrite remove_run. cbv zeta. fold bfilter.
  destruct (find bfilter db) as [|o' l'] eqn:F'; [discriminate|].
  injection F as -> ->.
  rewrite <- F', deleted_without by exact WF. reflexivity.
Qed.


(** Removing is not idempotent: after a successful removal the same call
    raises [NexusPortBindingNotFound] and changes nothing.  The first
    call returned at least one row, and every other lookup finds
    afterwards exactly its earlier rows that were not removed. *)
Theorem remove_then_remove_raises
        (admits : DB -> bool) (p v n s i b : Py.value) (db db1 : DB)
        (l : list binding) :
  Sa.wf_table (nexusport_bindings db) ->
  remove_nexusport_binding admits p v n s i b db = (inr l, db1) ->
  let bfilter := [(Vlan_id, v); (Vni, n); (Switch_ip, s); (Port_id, p);
                  (Instance_id, i); (Is_provider_vlan, b)] in
  remove_nexusport_binding admits p v n s i b db1
  = (inl (NexusPortBindingNotFound bfilter), db1)
  /\ l <> []
  /\ forall g,
      find g db1
      = filter (fun o => negb (matches bfilter (Sa.state o))) (find g db).
Proof.
  intros WF H bfilter. apply remove_inv in H; [|exact WF].
  cbv zeta in H. fold bfilter in H. destruct H as (F & NE & -> & A).
  split; [|split].
  - rewrite remove_run. cbv zeta. fold bfilter.
    rewrite find_without. reflexivity.
  - exact NE.
  - intros g. apply find_without_other.
Qed.

(** Insert then remove: when no row had the six column values before, a
    successful insert followed by the removal with the same values
    returns exactly the inserted binding and leaves the rows that were
    there before the insert.  The provider flag must be given: a column
    default would take the place of [None], and the removal filters on
    what was passed. *)
Theorem add_then_remove_restores_rows
        (admits : DB -> bool) (p v n s i b : Py.value) (db db1 : DB)
        (o : binding) :
  b <> Py.VNone ->
  Sa.wf_table (nexusport_bindings db) ->
  find [(Vlan_id, v); (Vni, n); (Switch_ip, s); (Port_id, p);
        (Instance_id, i); (Is_provider_vlan, b)] db = [] ->
  add_nexusport_binding admits p v n s i b db = (inr o, db1) ->
  exists db2,
    port_rows db2 = port_rows db
    /\ nexusnve_bindings db2 = nexusnve_bindings db
    /\ remove_nexusport_binding admits p v n s i b db1
       = if admits db2 then (inr [o], db2) else (inl DBError, db1).
Proof.
  intros _ WF F H. apply add_inv in H. cbv zeta in H.
  destruct H as (A & -> & ->).
  assert (Mr : matches [(Vlan_id, v); (Vni, n); (Switch_ip, s); (Port_id, p);
                        (Instance_id, i); (Is_provider_vlan, b)]
                       (NexusPortBinding.Build p v n s i b) = true).
  { unfold matches. cbn. now rewrite !py_eqb_refl. }
  remember (NexusPortBinding.Build p v n s i b) as r eqn:Er.
  remember [(Vlan_id, v); (Vni, n); (Switch_ip, s); (Port_id, p);
            (Instance_id, i); (Is_provider_vlan, b)] as bfilter eqn:Eb.
  assert (WF1 : Sa.wf_table (nexusport_bindings (with_row r db))).
  { exact (wf_table_add _ r WF). }
  exists (without bfilter (with_row r db)). split; [|split].
  - unfold without, with_row, port_rows, set_nexusport_bindings.
    cbn [nexusport_bindings Sa.rows]. rewrite filter_app.
    cbn [filter Sa.state]. rewrite Mr. cbn [negb]. rewrite app_nil_r.
    apply filter_all. intros x Hx.
    destruct (matches bfilter (Sa.state x)) eqn:Mx; [|reflexivity].
    assert (In x (find bfilter db)) by (apply find_In; split; assumption).
    rewrite F in H. destruct H.
  - reflexivity.
  - assert (FW : find bfilter (with_row r db)
                 = [Sa.Persistent (Sa.next_ident (nexusport_bindings db)) r]).
    { rewrite find_with_row, F, Mr. reflexivity. }
    rewrite Eb in FW.
    rewrite (remove_found admits p v n s i b (with_row r db) _ [] WF1 FW).
    rewrite <- Eb. reflexivity.
Qed.
End NexusRoundTrips.

Section NexusUpdate.
Import nexus_models_v2 nexus_db_v2 BindingStore.
Import NexusPortBinding (column(..)).

Lemma filter_map_commute {A : Type} (P : A -> bool) (f : A -> A)
      (l : list A) :
  (forall x, P (f x) = P x) -> filter P (map f l) = map f (filter P l).
Proof.
  intros H. induction l as [|a l IH]; simpl; [reflexivity|].
  rewrite H. destruct (P a); simpl; now rewrite IH.
Qed.

Lemma update_inv (admits : DB -> bool) (p v : Py.value) (db db1 : DB)
      (o' : binding) :
  Sa.wf_table (nexusport_bindings db) ->
  Py.truthy v = true ->
  update_nexusport_binding admits p v db = (inr (Some o'), db1) ->
  exists o,
    find [(Port_id, p)] db = [o]
    /\ o' = Sa.Persistent (Sa.ident o)
              (NexusPortBinding.set_vlan_id (Sa.state o) v)
    /\ db1 = with_vlan p v db
    /\ admits db1 = true.
Proof.
  intros WF T H. rewrite (update_run admits) in H by exact T.
  destruct (find [(Port_id, p)] db) as [|o [|o2 l]] eqn:F;
    try discriminate.
  cbv zeta in H. rewrite (merged_with_vlan p v db o WF F) in H.
  destruct (admits (with_vlan p v db)) eqn:A; [|discriminate].
  injection H as <- <-. exists o. auto.
Qed.

Lemma find_port_with_vlan (p v : Py.value) (db : DB) :
  find [(Port_id, p)] (with_vlan p v db) =
  map (fun o => Sa.Persistent (Sa.ident o)
                  (NexusPortBinding.set_vlan_id (Sa.state o) v))
      (find [(Port_id, p)] db).
Proof.
  unfold find, with_vlan, port_rows, Sa.filter_by,
    set_nexusport_bindings. cbn [nexusport_bindings Sa.rows].
  rewrite filter_map_commute.
  - rewrite map_ext_in with
      (g := fun o => Sa.Persistent (Sa.ident o)
                       (NexusPortBinding.set_vlan_id (Sa.state o) v)).
    + reflexivity.
    + intros x Hx. apply filter_In in Hx. destruct Hx as [_ Mx].
      unfold matches in Mx. cbn in Mx. rewrite andb_true_r in Mx.
      now rewrite Mx.
  - intros x. unfold matches. cbn.
    destruct (Py.eqb (NexusPortBinding.port_id (Sa.state x)) p) eqn:E;
      cbn; now rewrite E.
Qed.

Lemma with_vlan_twice (p v : Py.value) (db : DB) :
  with_vlan p v (with_vlan p v db) = with_vlan p v db.
Proof.
  unfold with_vlan, port_rows, set_nexusport_bindings.
  cbn [nexusport_bindings nexusnve_bindings Sa.rows Sa.next_ident].
  f_equal. f_equal. rewrite map_map. apply map_ext. intros x.
  destruct (Py.eqb (NexusPortBinding.port_id (Sa.state x)) p) eqn:E;
    cbn; rewrite E; reflexivity.
Qed.

(** After a successful update the 'one' lookup on the port returns the
    updated binding, which carries the new vlan id, and the same update
    again returns the same binding and changes nothing. *)
Theorem update_then_lookup_and_again
        (admits : DB -> bool) (p v : Py.value) (db db1 : DB) (o' : binding) :
  Sa.wf_table (nexusport_bindings db) ->
  Py.truthy v = true ->
  update_nexusport_binding admits p v db = (inr (Some o'), db1) ->
  NexusPortBinding.vlan_id (Sa.state o') = v
  /\ NexusPortBinding.port_id (Sa.state o') = p
  /\ Sa.with_session (_lookup_one_nexus_binding [(Port_id, p)]) db1
     = (inr o', db1)
  /\ update_nexusport_binding admits p v db1 = (inr (Some o'), db1).
Proof.
  intros WF T H.
  destruct (update_inv admits p v db db1 o' WF T H) as (o & F & -> & -> & A).
  assert (Mo : NexusPortBinding.port_id (Sa.state o) = p).
  { assert (Ho : In o (find [(Port_id, p)] db)) by (rewrite F; now left).
    apply find_In in Ho. destruct Ho as [_ Mo].
    apply matches_spec with (c := Port_id) (v := p) in Mo; [exact Mo|].
    now left. }
  assert (F1 : find [(Port_id, p)] (with_vlan p v db) =
               [Sa.Persistent (Sa.ident o)
                  (NexusPortBinding.set_vlan_id (Sa.state o) v)]).
  { rewrite find_port_with_vlan, F. reflexivity. }
  assert (WF1 : Sa.wf_table (nexusport_bindings (with_vlan p v db))).
  { apply wf_table_map; [|exact WF]. intros x.
    destruct (Py.eqb (NexusPortBinding.port_id (Sa.state x)) p);
      reflexivity. }
  split; [reflexivity|]. split; [exact Mo|]. split.
  - unfold Sa.with_session. rewrite lookup_one_run.
    cbn [Sa.pending Sa.get_session]. rewrite F1. reflexivity.
  - rewrite (update_run admits) by exact T. rewrite F1. cbv zeta.
    rewrite (merged_with_vlan p v _ _ WF1 F1).
    rewrite with_vlan_twice, A. reflexivity.
Qed.

(** A successful update changes nothing but the vlan id of the port's
    binding: identities and the other five columns of every row stay,
    rows of other ports stay as they are, and the NVE table is not
    touched. *)
Theorem update_changes_only_vlan
        (admits : DB -> bool) (p v : Py.value) (db db1 : DB) (o' : binding) :
  Sa.wf_table (nexusport_bindings db) ->
  Py.truthy v = true ->
  update_nexusport_binding admits p v db = (inr (Some o'), db1) ->
  map (fun x => (Sa.ident x,
                 NexusPortBinding.port_id (Sa.state x),
                 NexusPortBinding.vni (Sa.state x),
                 NexusPortBinding.switch_ip (Sa.state x),
                 NexusPortBinding.instance_id (Sa.state x),
                 NexusPortBinding.is_provider_vlan (Sa.state x)))
      (port_rows db1)
  = map (fun x => (Sa.ident x,
                   NexusPortBinding.port_id (Sa.state x),
                   NexusPortBinding.vni (Sa.state x),
                   NexusPortBinding.switch_ip (Sa.state x),
                   NexusPortBinding.instance_id (Sa.state x),
                   NexusPortBinding.is_provider_vlan (Sa.state x)))
        (port_rows db)
  /\ (forall x, In x (port_rows db) ->
                NexusPortBinding.port_id (Sa.state x) <> p ->
                In x (port_rows db1))
  /\ nexusnve_bindings db1 = nexusnve_bindings db.
Proof.
  intros WF T H.
  destruct (update_inv admits p v db db1 o' WF T H) as (o & F & -> & -> & A).
  split; [|split].
  - unfold with_vlan, port_rows, set_nexusport_bindings.
    cbn [nexusport_bindings Sa.rows]. rewrite map_map.
    apply map_ext. intros x.
    destruct (Py.eqb (NexusPortBinding.port_id (Sa.state x)) p);
      reflexivity.
  - intros x Hx Np. unfold with_vlan, port_rows, set_nexusport_bindings.
    cbn [nexusport_bindings Sa.rows]. apply in_map_iff. exists x.
    split; [|exact Hx].
    destruct (Py.eqb (NexusPortBinding.port_id (Sa.state x)) p) eqn:E;
      [|reflexivity].
    apply py_eqb_eq in E. contradiction.
  - reflexivity.
Qed.
End NexusUpdate.

(** ** NVE bindings *)

Section Nve.
Import nexus_models_v2 nexus_db_v2 BindingStore NveStore.

Lemma add_nve_run (admits : DB -> bool) (vni ip dev mc : Py.value) (db : DB) :
  add_nexusnve_binding admits vni ip dev mc db =
  let r := NexusNVEBinding.Build vni ip dev mc in
  if admits (with_nve r db)
  then (inr (Sa.Persistent (Sa.next_ident (nexusnve_bindings db)) r),
        with_nve r db)
  else (inl DBError, db).
Proof.
  unfold add_nexusnve_binding, Sa.with_session, Sa.add, Sa.flush, bind,
    with_nve, nve_rows.
  cbn. destruct (admits _); reflexivity.
Qed.

Lemma remove_nve_run (admits : DB -> bool) (vni ip dev : Py.value) (db : DB) :
  remove_nexusnve_binding admits vni ip dev db =
  match members vni ip dev db with
  | [] => (inl NoResultFound, db)
  | [o] =>
      if admits (without_nve o db) then (inr (Some o), without_nve o db)
      else (inl DBError, db)
  | _ :: _ :: _ => (inl MultipleResultsFound, db)
  end.
Proof.
  unfold remove_nexusnve_binding, Sa.with_session, bind, Sa.query, members,
    nve_rows.
  cbn. destruct (Sa.filter_by _ _) as [|o [|o2 l]]; try reflexivity.
  unfold Sa.delete, Sa.flush, without_nve, nve_rows. cbn.
  destruct (admits _); reflexivity.
Qed.

(** After a successful insert of an NVE binding, the member lookup on its
    vni, switch and device returns the rows it found before followed by
    the new binding. *)
Theorem add_nve_then_member_lookup
        (admits : DB -> bool) (vni ip dev mc : Py.value) (db db1 : DB)
        (o : nve_binding) :
  add_nexusnve_binding admits vni ip dev mc db = (inr o, db1) ->
  get_nve_vni_member_bindings vni ip dev db1
  = (inr (Some (members vni ip dev db ++ [o])), db1)
  /\ Sa.state o = NexusNVEBinding.Build vni ip dev mc
  /\ nexusport_bindings db1 = nexusport_bindings db.
Proof.
  intros H. rewrite add_nve_run in H. cbv zeta in H.
  destruct (admits _); [|discriminate]. injection H as <- <-.
  split; [|split; reflexivity].
  unfold get_nve_vni_member_bindings, Sa.with_session, try_except, bind,
    Sa.query, Sa.all, ret, members, with_nve, nve_rows, Sa.filter_by.
  cbn. rewrite filter_app. cbn. rewrite !py_eqb_refl. reflexivity.
Qed.

(** Removing an NVE binding raises SQLAlchemy's own [NoResultFound] when
    no row has the vni, switch and device, and [MultipleResultsFound]
    when several have, changing nothing; it never returns [None].  When
    exactly one row matches and the table declaration admits the result,
    that row is returned and no row of the member is left. *)
Theorem remove_nexusnve_binding_one_or_raises
        (admits : DB -> bool) (vni ip dev : Py.value) (db : DB) :
  remove_nexusnve_binding admits vni ip dev db =
    match members vni ip dev db with
    | [] => (inl NoResultFound, db)
    | [o] =>
        if admits (without_nve o db) then (inr (Some o), without_nve o db)
        else (inl DBError, db)
    | _ :: _ :: _ => (inl MultipleResultsFound, db)
    end
  /\ fst (remove_nexusnve_binding admits vni ip dev db) <> inr None
  /\ (forall o, members vni ip dev db = [o] ->
                members vni ip dev (without_nve o db) = [])
  /\ nexusport_bindings (snd (remove_nexusnve_binding admits vni ip dev db))
     = nexusport_bindings db.
Proof.
  split; [apply remove_nve_run|]. rewrite remove_nve_run. split; [|split].
  - destruct (members vni ip dev db) as [|o [|o2 l]]; try discriminate.
    destruct (admits _); discriminate.
  - intros o F. unfold members, without_nve, nve_rows, Sa.filter_by in *.
    cbn. rewrite filter_twice. apply filter_none. intros x Hx.
    match goal with
    | |- negb _ && ?c = false => destruct c eqn:Px
    end; [|apply andb_false_r].
    assert (Hy : In x [o]).
    { rewrite <- F. apply filter_In. split; assumption. }
    destruct Hy as [<-|[]]. now rewrite Nat.eqb_refl.
  - destruct (members vni ip dev db) as [|o [|o2 l]]; try reflexivity.
    destruct (admits _); reflexivity.
Qed.

(** The port-binding operations never touch the NVE table. *)
Theorem port_binding_operations_leave_nve_table
        (admits : DB -> bool) (p v n s i b : Py.value) (db : DB) :
  nexusnve_bindings (snd (add_nexusport_binding admits p v n s i b db))
  = nexusnve_bindings db
  /\ nexusnve_bindings (snd (remove_nexusport_binding admits p v n s i b db))
     = nexusnve_bindings db
  /\ nexusnve_bindings (snd (update_nexusport_binding admits p v db))
     = nexusnve_bindings db.
Proof.
  split; [|split].
  - rewrite add_run. cbv zeta. destruct (admits _); reflexivity.
  - rewrite remove_run. cbv zeta.
    destruct (find _ db) as [|o l]; [reflexivity|].
    destruct (admits _); reflexivity.
  - destruct (Py.truthy v) eqn:T.
    + rewrite (update_run admits) by exact T.
      destruct (find _ db) as [|o [|o2 l]]; try reflexivity.
      cbv zeta. destruct (admits _); reflexivity.
    + unfold update_nexusport_binding. rewrite T. reflexivity.
Qed.
End Nve.

(** ** n1kv: how lookups and mutations compose *)

Section N1kvCompose.
Import n1kv_models n1kv_db ProfileStore.

Lemma get_network_binding_run (network_id : Py.value) (db : DB) :
  get_network_binding network_id db =
  match bindings_of network_id db with
  | [] => (inl (NetworkBindingNotFound network_id), db)
  | [o] => (inr o, db)
  | _ :: _ :: _ => (inl MultipleResultsFound, db)
  end.
Proof.
  unfold get_network_binding, Sa.with_session, try_except, bind, Sa.query,
    bindings_of. cbn.
  destruct (Sa.filter_by _ _) as [|o [|o' l]]; reflexivity.
Qed.

Lemma get_network_profile_by_network_run (network_id : Py.value) (db : DB) :
  get_network_profile_by_network network_id db =
  match bindings_of network_id db with
  | [] => (inl NoResultFound, db)
  | [b] =>
      match profiles_with (N1kvNetworkBinding.profile_id (Sa.state b)) db with
      | [] => (inl NoResultFound, db)
      | [o] => (inr o, db)
      | _ :: _ :: _ => (inl MultipleResultsFound, db)
      end
  | _ :: _ :: _ => (inl MultipleResultsFound, db)
  end.
Proof.
  unfold get_network_profile_by_network, Sa.with_session, bind, Sa.query,
    bindings_of, profiles_with, profile_rows. cbn.
  destruct (Sa.filter_by _ (Sa.rows (network_bindings db)))
    as [|b [|b' l]]; try reflexivity.
  cbn. destruct (Sa.filter_by _ (Sa.rows (network_profiles db)))
    as [|o [|o' l]]; reflexivity.
Qed.

(** After a successful [add_network_binding], [get_network_binding]
    returns the new binding when the network had none before, and raises
    [MultipleResultsFound] when it already had one. *)
Theorem add_network_binding_then_get
        (admits : DB -> bool) (nid nt seg np : Py.value) (db db1 : DB)
        (o : Sa.persistent N1kvNetworkBinding.t) :
  Sa.with_session (add_network_binding admits nid nt seg np) db
  = (inr o, db1) ->
  Sa.state o = N1kvNetworkBinding.Build nid nt seg np
  /\ get_network_binding nid db1 =
     match Sa.filter_by
             (fun r => Py.eqb (N1kvNetworkBinding.network_id r) nid)
             (Sa.rows (network_bindings db)) with
     | [] => (inr o, db1)
     | _ :: _ => (inl MultipleResultsFound, db1)
     end.
Proof.
  intros H. rewrite add_network_binding_run in H. cbv zeta in H.
  destruct (admits _); [|discriminate]. injection H as <- <-.
  split; [reflexivity|].
  rewrite get_network_binding_run. unfold bindings_of, with_network_binding,
    Sa.filter_by. cbn. rewrite filter_app. cbn. rewrite py_eqb_refl.
  destruct (filter _ (Sa.rows (network_bindings db))) as [|b [|b' l]];
    reflexivity.
Qed.

(** [get_network_profile_by_network] returns the profile whose id the
    network's binding names.  When the network has no binding, or the
    named profile does not exist, it raises SQLAlchemy's own
    [NoResultFound], where [get_network_binding] raises
    [NetworkBindingNotFound]. *)
Theorem get_network_profile_by_network_follows_binding
        (network_id : Py.value) (db : DB) :
  (forall o,
      get_network_profile_by_network network_id db = (inr o, db) ->
      exists b,
        get_network_binding network_id db = (inr b, db)
        /\ NetworkProfile.id (Sa.state o)
           = N1kvNetworkBinding.profile_id (Sa.state b)
        /\ In o (profile_rows db))
  /\ (get_network_binding network_id db
      = (inl (NetworkBindingNotFound network_id), db) ->
      get_network_profile_by_network network_id db
      = (inl NoResultFound, db))
  /\ (forall b,
        get_network_binding network_id db = (inr b, db) ->
        (forall o, In o (profile_rows db) ->
                   NetworkProfile.id (Sa.state o)
                   <> N1kvNetworkBinding.profile_id (Sa.state b)) ->
        get_network_profile_by_network network_id db
        = (inl NoResultFound, db)).
Proof.
  rewrite get_network_binding_run, get_network_profile_by_network_run.
  split; [|split].
  - intros o H.
    destruct (bindings_of network_id db) as [|b [|b' l]]; try discriminate.
    exists b. split; [reflexivity|].
    destruct (profiles_with _ db) as [|o1 [|o2 l]] eqn:P; try discriminate.
    injection H as <-.
    assert (Ho : In o1 (profiles_with
                          (N1kvNetworkBinding.profile_id (Sa.state b)) db))
      by (rewrite P; now left).
    apply filter_In in Ho. destruct Ho as [Hin E].
    apply py_eqb_eq in E. auto.
  - destruct (bindings_of network_id db) as [|b [|b' l]];
      try discriminate. reflexivity.
  - intros b H Hno.
    destruct (bindings_of network_id db) as [|b0 [|b' l]]; try discriminate.
    injection H as ->.
    destruct (profiles_with _ db) as [|o1 l] eqn:P; [reflexivity|].
    exfalso.
    assert (Ho : In o1 (profiles_with
                          (N1kvNetworkBinding.profile_id (Sa.state b)) db))
      by (rewrite P; now left).
    apply filter_In in Ho. destruct Ho as [Hin E].
    apply py_eqb_eq in E. exact (Hno o1 Hin E).
Qed.

(** A profile that the lookup of some network returns cannot be deleted:
    with the foreign key from the network bindings to the network
    profiles declared on the tables, [remove_network_profile] on that
    profile's id fails with the database's integrity error, the store
    stays as it was and the lookup still returns the profile. *)
Theorem profile_of_a_network_is_kept
        (admits : DB -> bool) (network_id : Py.value) (db : DB)
        (o : Sa.persistent NetworkProfile.t) :
  (forall d, admits d = true -> references_kept d = true) ->
  get_network_profile_by_network network_id db = (inr o, db) ->
  Sa.with_session
    (remove_network_profile admits (NetworkProfile.id (Sa.state o))) db
  = (inl DBError, db)
  /\ get_network_profile_by_network network_id
       (snd (Sa.with_session
               (remove_network_profile admits
                  (NetworkProfile.id (Sa.state o))) db))
     = (inr o, db).
Proof.
  intros FK H.
  assert (R : Sa.with_session
                (remove_network_profile admits
                   (NetworkProfile.id (Sa.state o))) db
              = (inl DBError, db)).
  { rewrite get_network_profile_by_network_run in H.
    destruct (bindings_of network_id db) as [|b [|b' l]] eqn:B;
      try discriminate.
    destruct (profiles_with _ db) as [|o1 [|o2 l]] eqn:P; try discriminate.
    injection H as ->.
    assert (Ho : In o (profiles_with
                         (N1kvNetworkBinding.profile_id (Sa.state b)) db))
      by (rewrite P; now left).
    apply filter_In in Ho. destruct Ho as [_ E]. apply py_eqb_eq in E.
    rewrite <- E in P.
    apply (delete_referenced_rejected admits _ db o FK P).
    unfold network_profile_referenced. apply existsb_exists.
    exists b. split.
    - assert (Hb : In b (bindings_of network_id db)) by (rewrite B; now left).
      apply filter_In in Hb. tauto.
    - apply py_eqb_eq. now symmetry. }
  split; [exact R|]. rewrite R. exact H.
Qed.

(** After a successful [add_policy_binding] the profile is in use, and
    [get_policy_binding] returns the new binding when the port had none
    before and raises [MultipleResultsFound] when it had one. *)
Theorem add_policy_binding_marks_profile_in_use
        (admits : DB -> bool) (port_id pprofile_id : Py.value) (db db1 : DB)
        (o : Sa.persistent N1kvPortBinding.t) :
  Sa.with_session (add_policy_binding admits port_id pprofile_id) db
  = (inr o, db1) ->
  policy_profile_in_use pprofile_id db1 = (inr true, db1)
  /\ Sa.with_session (get_policy_binding port_id) db1 =
     match Sa.filter_by (fun r => Py.eqb (N1kvPortBinding.port_id r) port_id)
                        (Sa.rows (port_bindings db)) with
     | [] => (inr o, db1)
     | _ :: _ => (inl MultipleResultsFound, db1)
     end
  /\ forall other,
      fst (policy_profile_in_use other db) = inr true ->
      fst (policy_profile_in_use other db1) = inr true.
Proof.
  intros H.
  unfold Sa.with_session, add_policy_binding, bind, Sa.add, Sa.flush in H.
  cbn in H. destruct (admits _); [|discriminate]. injection H as <- <-.
  split; [|split].
  - unfold policy_profile_in_use, Sa.with_session, bind, Sa.query, Sa.first,
      Sa.filter_by. cbn. rewrite first_is_some_existsb, existsb_app. cbn.
    rewrite py_eqb_refl, orb_true_r. reflexivity.
  - unfold get_policy_binding, Sa.with_session, try_except, bind, Sa.query,
      Sa.filter_by. cbn. rewrite filter_app. cbn. rewrite py_eqb_refl.
    destruct (filter _ (Sa.rows (port_bindings db))) as [|b [|b' l]];
      reflexivity.
  - intros other.
    unfold policy_profile_in_use, Sa.with_session, bind, Sa.query, Sa.first,
      Sa.filter_by. cbn. rewrite !first_is_some_existsb, existsb_app.
    intros E. injection E as ->. reflexivity.
Qed.

(** [get_network_profile_by_type] returns the profile of a segment type
    exactly when one profile has it; with none it raises
    [NetworkProfileNotFound], with several [MultipleResultsFound]. *)
Theorem get_network_profile_by_type_exactly_one
        (segment_type : Py.value) (db : DB) :
  Sa.with_session (get_network_profile_by_type segment_type) db =
    match Sa.filter_by
            (fun r => Py.eqb (NetworkProfile.segment_type r) segment_type)
            (profile_rows db) with
    | [] => (inl (NetworkProfileNotFound segment_type), db)
    | [o] => (inr o, db)
    | _ :: _ :: _ => (inl MultipleResultsFound, db)
    end
  /\ forall o,
      fst (Sa.with_session (get_network_profile_by_type segment_type) db)
      = inr o ->
      In o (profile_rows db)
      /\ NetworkProfile.segment_type (Sa.state o) = segment_type
      /\ forall o', In o' (profile_rows db) ->
                    NetworkProfile.segment_type (Sa.state o') = segment_type ->
                    o' = o.
Proof.
  assert (E : Sa.with_session (get_network_profile_by_type segment_type) db =
    match Sa.filter_by
            (fun r => Py.eqb (NetworkProfile.segment_type r) segment_type)
            (profile_rows db) with
    | [] => (inl (NetworkProfileNotFound segment_type), db)
    | [o] => (inr o, db)
    | _ :: _ :: _ => (inl MultipleResultsFound, db)
    end).
  { unfold get_network_profile_by_type, Sa.with_session, try_except, bind,
      Sa.query, profile_rows. cbn.
    destruct (Sa.filter_by _ _) as [|o [|o' l]]; reflexivity. }
  split; [exact E|]. rewrite E. intros o.
  destruct (Sa.filter_by _ (profile_rows db)) as [|o1 [|o2 l]] eqn:F;
    try discriminate.
  cbn. intros H. injection H as <-.
  assert (Ho : forall x, In x (profile_rows db) /\
                         Py.eqb (NetworkProfile.segment_type (Sa.state x))
                                segment_type = true <-> In x [o1]).
  { intros x. rewrite <- F. symmetry. apply filter_In. }
  destruct (proj2 (Ho o1) (or_introl eq_refl)) as [Hin Hs].
  split; [exact Hin|]. split; [now apply py_eqb_eq|].
  intros o' Hin' Hs'. apply py_eqb_eq in Hs'.
  destruct (proj1 (Ho o') (conj Hin' Hs')) as [<-|[]]. reflexivity.
Qed.
End N1kvCompose.

Section PolicyProfiles.
Import n1kv_models n1kv_db.

Variable Database' : Type.
Variable policy_profiles : Database' -> Sa.table PolicyProfile.t.
Variable scan : @Sa.Query PolicyProfile.t -> @Sa.Query PolicyProfile.t.

Lemma scan_head (q : @Sa.Query PolicyProfile.t) :
  (forall q' o, In o (scan q') <-> In o q') ->
  match hd_error (scan q) with
  | None => q = []
  | Some o => In o q
  end.
Proof.
  intros Scan. destruct (scan q) as [|o l] eqn:S; cbn.
  - destruct q as [|x q]; [reflexivity|]. exfalso.
    assert (Hx : In x (scan (x :: q))).
    { apply (proj2 (Scan (x :: q) x)). now left. }
    rewrite S in Hx. destruct Hx.
  - apply (proj1 (Scan q o)). rewrite S. now left.
Qed.

(** The policy profile lookups by name and by id never raise and leave
    the database as it was: they return [None] exactly when no profile
    has the name (the id), and otherwise one of the profiles that have
    it, the one the database hands back first. *)
Theorem get_policy_profile_none_when_absent
        (key : Py.value) (db : Database') :
  (forall q o, In o (scan q) <-> In o q) ->
  (exists r,
      Sa.with_session (get_policy_profile_by_name policy_profiles scan key) db
      = (inr r, db)
      /\ match r with
         | None => forall o, In o (Sa.rows (policy_profiles db)) ->
                             PolicyProfile.name (Sa.state o) <> key
         | Some o => In o (Sa.rows (policy_profiles db))
                     /\ PolicyProfile.name (Sa.state o) = key
         end)
  /\ (exists r,
        Sa.with_session (get_policy_profile_by_uuid policy_profiles scan key)
                        db
        = (inr r, db)
        /\ match r with
           | None => forall o, In o (Sa.rows (policy_profiles db)) ->
                               PolicyProfile.id (Sa.state o) <> key
           | Some o => In o (Sa.rows (policy_profiles db))
                       /\ PolicyProfile.id (Sa.state o) = key
           end).
Proof.
  intros Scan. split.
  - eexists. split; [reflexivity|].
    pose proof (scan_head
                  (Sa.filter_by (fun r => Py.eqb (PolicyProfile.name r) key)
                                (Sa.rows (policy_profiles db))) Scan) as H.
    cbn. destruct (hd_error _) as [o|].
    + apply filter_In in H. destruct H as [Hin E].
      split; [exact Hin | now apply py_eqb_eq].
    + intros o Hin E. apply py_eqb_eq in E.
      assert (Ho : In o (Sa.filter_by
                           (fun r => Py.eqb (PolicyProfile.name r) key)
                           (Sa.rows (policy_profiles db))))
        by (apply filter_In; split; assumption).
      rewrite H in Ho. destruct Ho.
  - eexists. split; [reflexivity|].
    pose proof (scan_head
                  (Sa.filter_by (fun r => Py.eqb (PolicyProfile.id r) key)
                                (Sa.rows (policy_profiles db))) Scan) as H.
    cbn. destruct (hd_error _) as [o|].
    + apply filter_In in H. destruct H as [Hin E].
      split; [exact Hin | now apply py_eqb_eq].
    + intros o Hin E. apply py_eqb_eq in E.
      assert (Ho : In o (Sa.filter_by
                           (fun r => Py.eqb (PolicyProfile.id r) key)
                           (Sa.rows (policy_profiles db))))
        by (apply filter_In; split; assumption).
      rewrite H in Ho. destruct Ho.
Qed.
End PolicyProfiles.

(** ** The cfg-agent notifier: what is cast *)

Section NotifierCasts.
Import l3_router_rpc_joint_agent_api.

Variable context : Type.
Variable is_admin : context -> bool.
Variable elevated : context -> context.
Variable plugin : Type.
Variable get_cfg_agents_for_hosting_devices :
  context -> list Py.value -> M plugin (list agent).

Local Abbreviation notify :=
  (_agent_notification is_admin elevated get_cfg_agents_for_hosting_devices).

Lemma for_each_cast (t : topic_name) (ctx : context) (m : string)
      (a : cast_args) (agents : list agent) (w : world context plugin) :
  for_each agents (fun ag => cast t (host ag) ctx m a) w
  = (inr tt,
     World (_l3plugin w)
           (client w ++ map (fun ag => Cast t (host ag) ctx m a) agents)).
Proof.
  revert w. induction agents as [|ag l IH]; intros w.
  - cbn. rewrite app_nil_r. destruct w. reflexivity.
  - cbn [for_each]. unfold bind at 1. unfold cast at 1. rewrite IH.
    cbn. rewrite <- app_assoc. reflexivity.
Qed.

Lemma notify_one (ctx : context) (method : string) (r : router_dict)
      (operation data : Py.value) (w : world context plugin) :
  notify ctx method [r] operation data w =
  match hosting_device r with
  | None => (inr tt, w)
  | Some hd =>
      match get_cfg_agents_for_hosting_devices
              (if is_admin ctx then ctx else elevated ctx) [hd_id hd]
              (_l3plugin w) with
      | (inr agents, p') =>
          (inr tt,
           World p'
                 (client w ++
                  map (fun ag => Cast CFG_AGENT_L3_ROUTING (host ag) ctx method
                                      (routers_kw [id r])) agents))
      | (inl e, p') => (inl e, World p' (client w))
      end
  end.
Proof.
  unfold _agent_notification. cbn [for_each].
  destruct (hosting_device r) as [hd|]; [|reflexivity].
  unfold bind at 1. unfold bind at 1. unfold call_plugin.
  destruct (get_cfg_agents_for_hosting_devices _ _ _) as [[e|agents] p'];
    [reflexivity|].
  rewrite for_each_cast. reflexivity.
Qed.

Lemma notify_app (ctx : context) (method : string)
      (l1 l2 : list router_dict) (operation data : Py.value)
      (w : world context plugin) :
  notify ctx method (l1 ++ l2) operation data w =
  match notify ctx method l1 operation data w with
  | (inr _, w1) => notify ctx method l2 operation data w1
  | (inl e, w1) => (inl e, w1)
  end.
Proof.
  revert w. induction l1 as [|r l IH]; intros w; [reflexivity|].
  cbn [app].
  rewrite (notify_cons _ is_admin elevated _ get_cfg_agents_for_hosting_devices
                       ctx method r (l ++ l2)).
  rewrite (notify_cons _ is_admin elevated _ get_cfg_agents_for_hosting_devices
                       ctx method r l).
  destruct (notify ctx method [r] operation data w) as [[e|u] w1];
    [reflexivity | apply IH].
Qed.

(** Whatever the routers and the plugin's answers, a notification only
    appends to what was cast before, and every message it appends goes to
    the L3 routing topic, carries the caller's context (not the elevated
    one) and the given method, and names exactly one router, one of the
    given routers that has a hosting device.  The [operation] and [data]
    arguments change nothing. *)
Theorem notification_casts_one_router_each
        (ctx : context) (method : string) (routers : list router_dict)
        (operation data : Py.value) (w : world context plugin) :
  (exists msgs,
      client (snd (notify ctx method routers operation data w))
      = client w ++ msgs
      /\ Forall (fun m =>
                   topic m = CFG_AGENT_L3_ROUTING
                   /\ ctxt m = ctx
                   /\ l3_router_rpc_joint_agent_api.method m = method
                   /\ exists r, In r routers
                                /\ hosting_device r <> None
                                /\ args m = routers_kw [id r]) msgs)
  /\ forall operation' data',
      notify ctx method routers operation' data' w
      = notify ctx method routers operation data w.
Proof.
  split; [|reflexivity].
  revert w. induction routers as [|r l IH]; intros w.
  - exists []. split; [cbn; now rewrite app_nil_r | constructor].
  - rewrite (notify_cons _ is_admin elevated _
               get_cfg_agents_for_hosting_devices ctx method r l).
    rewrite notify_one.
    assert (Weaken :
      forall msgs,
        Forall (fun m =>
                  topic m = CFG_AGENT_L3_ROUTING
                  /\ ctxt m = ctx
                  /\ l3_router_rpc_joint_agent_api.method m = method
                  /\ exists r0, In r0 l
                                /\ hosting_device r0 <> None
                                /\ args m = routers_kw [id r0]) msgs ->
        Forall (fun m =>
                  topic m = CFG_AGENT_L3_ROUTING
                  /\ ctxt m = ctx
                  /\ l3_router_rpc_joint_agent_api.method m = method
                  /\ exists r0, In r0 (r :: l)
                                /\ hosting_device r0 <> None
                                /\ args m = routers_kw [id r0]) msgs).
    { intros msgs. apply Forall_impl.
      intros m (H1 & H2 & H3 & r0 & H4 & H5).
      repeat split; try assumption. exists r0. split; [now right | exact H5]. }
    destruct (hosting_device r) as [hd|] eqn:Hr.
    + destruct (get_cfg_agents_for_hosting_devices _ _ _) as [[e|agents] p'].
      * exists []. split; [cbn; now rewrite app_nil_r | constructor].
      * destruct (IH (World p' (client w ++
                   map (fun ag => Cast CFG_AGENT_L3_ROUTING (host ag) ctx
                                       method (routers_kw [id r])) agents)))
          as (msgs & E & G).
        eexists. split.
        -- rewrite E. cbn. rewrite <- app_assoc. reflexivity.
        -- apply Forall_app. split; [|now apply Weaken].
           apply Forall_forall. intros m Hm. apply in_map_iff in Hm.
           destruct Hm as (ag & <- & _). cbn. repeat split.
           exists r. split; [now left|]. split; [congruence | reflexivity].
    + destruct (IH w) as (msgs & E & G).
      exists msgs. split; [exact E | now apply Weaken].
Qed.

(** Deleting a router on a hosting device casts one ['router_deleted']
    message per cfg agent the plugin returns for that device, in the
    plugin's order, each to the agent's host and naming the router. *)
Theorem router_deleted_casts_once_per_agent
        (ctx : context) (r : router_dict) (hd : hosting_device_dict)
        (agents : list agent) (p' : plugin) (w : world context plugin) :
  hosting_device r = Some hd ->
  get_cfg_agents_for_hosting_devices
    (if is_admin ctx then ctx else elevated ctx) [hd_id hd] (_l3plugin w)
  = (inr agents, p') ->
  router_deleted is_admin elevated get_cfg_agents_for_hosting_devices ctx r w
  = (inr tt,
     World p'
           (client w ++
            map (fun ag => Cast CFG_AGENT_L3_ROUTING (host ag) ctx
                                "router_deleted" (routers_kw [id r]))
                agents)).
Proof.
  intros Hr Ha. unfold router_deleted. rewrite notify_one, Hr, Ha.
  reflexivity.
Qed.

(** When the plugin raises for a router, the notification stops there:
    the exception reaches the caller, the messages already cast for the
    routers before it stay cast, and the routers after it get none. *)
Theorem plugin_failure_stops_notification
        (ctx : context) (method : string)
        (before after : list router_dict) (r : router_dict)
        (hd : hosting_device_dict) (operation data : Py.value)
        (e : exn) (p' : plugin) (w w1 : world context plugin) :
  notify ctx method before operation data w = (inr tt, w1) ->
  hosting_device r = Some hd ->
  get_cfg_agents_for_hosting_devices
    (if is_admin ctx then ctx else elevated ctx) [hd_id hd] (_l3plugin w1)
  = (inl e, p') ->
  notify ctx method (before ++ r :: after) operation data w
  = (inl e, World p' (client w1)).
Proof.
  intros Hb Hr Ha. rewrite notify_app, Hb.
  rewrite (notify_cons _ is_admin elevated _
             get_cfg_agents_for_hosting_devices ctx method r after).
  rewrite notify_one, Hr, Ha. reflexivity.
Qed.
End NotifierCasts.

(** ** The Nexus configuration dictionary *)

Section NexusConfig.
Import nexus_config.

Lemma dev_key_eqb_eq (a b : string * string) :
  dev_key_eqb a b = true <-> a = b.
Proof.
  destruct a as [a1 a2], b as [b1 b2]. unfold dev_key_eqb. cbn.
  rewrite andb_true_iff, !String.eqb_eq. split.
  - intros [-> ->]. reflexivity.
  - intros E. injection E as -> ->. auto.
Qed.

Lemma dev_key_eqb_refl (a : string * string) : dev_key_eqb a a = true.
Proof. now apply dev_key_eqb_eq. Qed.

Lemma get_setitem (k k' : string * string) (v : string) (d : dict) :
  get k (setitem k' v d) = if dev_key_eqb k' k then Some v else get k d.
Proof.
  induction d as [|[k0 v0] d IH]; cbn.
  - reflexivity.
  - destruct (dev_key_eqb k0 k') eqn:E0; cbn.
    + apply dev_key_eqb_eq in E0. subst k0.
      destruct (dev_key_eqb k' k); reflexivity.
    + rewrite IH. destruct (dev_key_eqb k0 k) eqn:E1; [|reflexivity].
      apply dev_key_eqb_eq in E1. subst k0.
      destruct (dev_key_eqb k' k) eqn:E2; [|reflexivity].
      apply dev_key_eqb_eq in E2. subst k'.
      rewrite dev_key_eqb_refl in E0. discriminate.
Qed.

Lemma last_assigned_app (k : string * string)
      (l1 l2 : list ((string * string) * string)) :
  last_assigned k (l1 ++ l2) =
  match last_assigned k l2 with
  | Some v => Some v
  | None => last_assigned k l1
  end.
Proof.
  induction l1 as [|[k0 v0] l1 IH]; cbn.
  - destruct (last_assigned k l2); reflexivity.
  - rewrite IH. destruct (last_assigned k l2); reflexivity.
Qed.

Lemma holds_after_app l1 l2 d d1 :
  (forall k, get k d1 = holds_after l1 d k) ->
  forall k, holds_after l2 d1 k = holds_after (l1 ++ l2) d k.
Proof.
  intros H k. unfold holds_after. rewrite last_assigned_app.
  destruct (last_assigned k l2); [reflexivity | apply H].
Qed.

Lemma for_items_get (dev_ip : string) (its : items) (d d' : dict) :
  for_items dev_ip its d = (inr tt, d') ->
  forall k,
    get k d' =
    holds_after (first_values (map (fun it => ((dev_ip, fst it), snd it)) its)) d k.
Proof.
  revert d. induction its as [|[dev_key value] its IH]; intros d H k.
  - injection H as <-. reflexivity.
  - cbn in H. destruct value as [|v0 vs]; [discriminate|].
    rewrite (IH _ H k). unfold holds_after. cbn.
    destruct (last_assigned k _); [reflexivity|].
    rewrite get_setitem. destruct (dev_key_eqb _ k); reflexivity.
Qed.

Lemma for_sections_get (secs : parsed_file) (d d' : dict) :
  for_sections secs d = (inr tt, d') ->
  forall k,
    get k d' = holds_after (first_values (flat_map section_assignments secs)) d k.
Proof.
  revert d. induction secs as [|[name its] secs IH]; intros d H k.
  - injection H as <-. reflexivity.
  - cbn [for_sections] in H. cbn [flat_map]. unfold first_values.
    rewrite map_app. fold (first_values (flat_map section_assignments secs)).
    unfold section_assignments at 1. cbn [fst snd].
    destruct (PyStr.partition ":" name) as [[dev_id sep] dev_ip].
    destruct (String.eqb (PyStr.lower dev_id) "ml2_mech_cisco_nexus").
    + destruct (for_items dev_ip its d) as [[e|[]] d1] eqn:F;
        [discriminate|].
      rewrite (IH _ H k).
      apply (holds_after_app _ _ d d1). intros k0.
      apply (for_items_get dev_ip its d d1 F).
    + rewrite (IH _ H k). reflexivity.
Qed.

Lemma for_files_get (parsed : list parsed_file) (d d' : dict) :
  for_files parsed d = (inr tt, d') ->
  forall k, get k d' = holds_after (first_values (assignments parsed)) d k.
Proof.
  revert d. induction parsed as [|file parsed IH]; intros d H k.
  - injection H as <-. reflexivity.
  - cbn [for_files] in H. unfold assignments. cbn [flat_map].
    unfold first_values. rewrite map_app.
    destruct (for_sections file d) as [[e|[]] d1] eqn:F; [discriminate|].
    rewrite (IH _ H k).
    apply (holds_after_app _ _ d d1). intros k0.
    apply (for_sections_get file d d1 F).
Qed.

(** Whether a run succeeds does not depend on the dictionary it starts
    from. *)
Lemma for_items_outcome (dev_ip : string) (its : items) (d d' : dict) :
  fst (for_items dev_ip its d) = fst (for_items dev_ip its d').
Proof.
  revert d d'. induction its as [|[dev_key value] its IH]; intros d d'.
  - reflexivity.
  - cbn. destruct value; [reflexivity | apply IH].
Qed.

Lemma for_sections_outcome (secs : parsed_file) (d d' : dict) :
  fst (for_sections secs d) = fst (for_sections secs d').
Proof.
  revert d d'. induction secs as [|[name its] secs IH]; intros d d'.
  - reflexivity.
  - cbn [for_sections].
    destruct (PyStr.partition ":" name) as [[dev_id sep] dev_ip].
    destruct (String.eqb (PyStr.lower dev_id) "ml2_mech_cisco_nexus");
      [|apply IH].
    pose proof (for_items_outcome dev_ip its d d') as O.
    destruct (for_items dev_ip its d) as [[e|[]] d1],
             (for_items dev_ip its d') as [[e'|[]] d1'];
      cbn in O; try discriminate; [exact O | apply IH].
Qed.

Lemma for_files_outcome (parsed : list parsed_file) (d d' : dict) :
  fst (for_files parsed d) = fst (for_files parsed d').
Proof.
  revert d d'. induction parsed as [|file parsed IH]; intros d d'.
  - reflexivity.
  - cbn [for_files].
    pose proof (for_sections_outcome file d d') as O.
    destruct (for_sections file d) as [[e|[]] d1],
             (for_sections file d') as [[e'|[]] d1'];
      cbn in O; try discriminate; [exact O | apply IH].
Qed.

(** After a successful load, a key holds the first value of the last
    nexus-section item that names it, taking the files in the order in
    which the parser holds them (its own order, not that of the
    configured file names) and the sections and items inside each in
    their iteration order; a key that no item names holds what it held
    before. *)
Theorem config_last_assignment_wins
        (config_file read_ok : list string) (parsed : list parsed_file)
        (d d' : dict) :
  _create_ml2_mech_device_cisco_dictionary config_file read_ok parsed d
  = (inr tt, d') ->
  forall k,
    get k d' =
    holds_after (first_values (assignments parsed)) d k.
Proof.
  unfold _create_ml2_mech_device_cisco_dictionary.
  destruct (negb _); [discriminate|].
  intros H k. exact (for_files_get parsed d d' H k).
Qed.

(** Loading the same files again changes no entry: a second successful
    run on the result of the first succeeds and every key holds the same
    value. *)
Theorem config_reload_changes_nothing
        (config_file read_ok : list string) (parsed : list parsed_file)
        (d d1 : dict) :
  _create_ml2_mech_device_cisco_dictionary config_file read_ok parsed d
  = (inr tt, d1) ->
  exists d2,
    _create_ml2_mech_device_cisco_dictionary config_file read_ok parsed d1
    = (inr tt, d2)
    /\ forall k, get k d2 = get k d1.
Proof.
  unfold _create_ml2_mech_device_cisco_dictionary.
  destruct (negb _); [discriminate|]. intros H.
  pose proof (for_files_outcome parsed d d1) as O. rewrite H in O. cbn in O.
  destruct (for_files parsed d1) as [[e|[]] d2] eqn:H2; cbn in O;
    [discriminate|].
  exists d2. split; [reflexivity|]. intros k.
  rewrite (for_files_get parsed d1 d2 H2 k). unfold holds_after.
  destruct (last_assigned k _) eqn:L.
  - rewrite (for_files_get parsed d d1 H k). unfold holds_after.
    now rewrite L.
  - reflexivity.
Qed.
End NexusConfig.

Section NexusConfigSections.
Import nexus_config.

Lemma for_sections_app (s1 s2 : parsed_file) (d : dict) :
  for_sections (s1 ++ s2) d =
  match for_sections s1 d with
  | (inr _, d1) => for_sections s2 d1
  | (inl e, d1) => (inl e, d1)
  end.
Proof.
  revert d. induction s1 as [|[name its] s1 IH]; intros d; [reflexivity|].
  cbn [app for_sections].
  destruct (PyStr.partition ":" name) as [[dev_id sep] dev_ip].
  destruct (String.eqb (PyStr.lower dev_id) "ml2_mech_cisco_nexus");
    [|apply IH].
  destruct (for_items dev_ip its d) as [[e|[]] d1]; [reflexivity | apply IH].
Qed.

Lemma for_files_app (f1 f2 : list parsed_file) (d : dict) :
  for_files (f1 ++ f2) d =
  match for_files f1 d with
  | (inr _, d1) => for_files f2 d1
  | (inl e, d1) => (inl e, d1)
  end.
Proof.
  revert d. induction f1 as [|file f1 IH]; intros d; [reflexivity|].
  cbn [app for_files].
  destruct (for_sections file d) as [[e|[]] d1]; [reflexivity | apply IH].
Qed.

(** A section whose name, up to its first colon, is not
    [ml2_mech_cisco_nexus] in some letter case contributes nothing,
    wherever it stands and whatever it holds. *)
Theorem config_ignores_other_sections
        (config_file read_ok : list string)
        (files_before files_after : list parsed_file)
        (sections_before sections_after : parsed_file)
        (name : string) (its : items) (d : dict) :
  String.eqb (PyStr.lower (fst (fst (PyStr.partition ":" name))))
             "ml2_mech_cisco_nexus" = false ->
  _create_ml2_mech_device_cisco_dictionary config_file read_ok
    (files_before
     ++ (sections_before ++ (name, its) :: sections_after) :: files_after) d
  = _create_ml2_mech_device_cisco_dictionary config_file read_ok
      (files_before ++ (sections_before ++ sections_after) :: files_after) d.
Proof.
  intros H. unfold _create_ml2_mech_device_cisco_dictionary.
  destruct (negb _); [reflexivity|].
  rewrite !for_files_app.
  destruct (for_files files_before d) as [[e|[]] d1]; [reflexivity|].
  cbn [for_files]. rewrite !for_sections_app.
  destruct (for_sections sections_before d1) as [[e|[]] d2]; [reflexivity|].
  cbn [for_sections].
  destruct (PyStr.partition ":" name) as [[dev_id sep] dev_ip].
  cbn [fst] in H. rewrite H. reflexivity.
Qed.

(** *** Section names *)

Lemma lower_char_colon (c : ascii) :
  Ascii.eqb (PyStr.lower_char c) ":" = Ascii.eqb c ":".
Proof. destruct c as [[] [] [] [] [] [] [] []]; reflexivity. Qed.

Lemma contains_colon_lower (s : string) :
  PyStr.contains ":" (PyStr.lower s) = PyStr.contains ":" s.
Proof.
  induction s as [|c s IH]; cbn; [reflexivity|].
  now rewrite lower_char_colon, IH.
Qed.

Lemma partition_at_first_colon (before rest : string) :
  PyStr.contains ":" before = false ->
  PyStr.partition ":" (String.append before (String ":" rest))
  = (before, String ":" EmptyString, rest).
Proof.
  induction before as [|c s IH]; cbn; intros H; [reflexivity|].
  apply orb_false_iff in H. destruct H as [Hc Hs].
  rewrite Hc, (IH Hs). reflexivity.
Qed.

Lemma partition_without_colon (s : string) :
  PyStr.contains ":" s = false ->
  PyStr.partition ":" s = (s, EmptyString, EmptyString).
Proof.
  induction s as [|c s IH]; cbn; intros H; [reflexivity|].
  apply orb_false_iff in H. destruct H as [Hc Hs].
  rewrite Hc, (IH Hs). reflexivity.
Qed.

(** The section name is matched without regard to letter case, and the
    device address is everything after its first colon, further colons
    included; a nexus section named without a colon files its items
    under the empty address. *)
Theorem config_address_follows_first_colon
        (config_file : string) (prefix dev_ip dev_key value0 : string)
        (values : list string) (d : dict) :
  PyStr.lower prefix = "ml2_mech_cisco_nexus"%string ->
  (let '(r, d') :=
     _create_ml2_mech_device_cisco_dictionary [config_file] [config_file]
       [[(String.append prefix (String ":" dev_ip),
          [(dev_key, value0 :: values)])]] d in
   r = inr tt /\ d' = setitem (dev_ip, dev_key) value0 d
   /\ get (dev_ip, dev_key) d' = Some value0)
  /\ (let '(r, d') :=
        _create_ml2_mech_device_cisco_dictionary [config_file] [config_file]
          [[(prefix, [(dev_key, value0 :: values)])]] d in
      r = inr tt /\ d' = setitem (EmptyString, dev_key) value0 d).
Proof.
  intros L.
  assert (C : PyStr.contains ":" prefix = false).
  { rewrite <- contains_colon_lower, L. reflexivity. }
  unfold _create_ml2_mech_device_cisco_dictionary. cbn [List.length Nat.eqb negb].
  cbn [for_files for_sections].
  rewrite (partition_at_first_colon prefix dev_ip C),
          (partition_without_colon prefix C), L.
  cbn. rewrite get_setitem, dev_key_eqb_refl. auto.
Qed.

(** *** Outcomes *)

Lemma forallb_on_map {A B : Type} (f : B -> bool) (g : A -> B)
      (l : list A) :
  forallb f (map g l) = forallb (fun x => f (g x)) l.
Proof.
  induction l as [|a l IH]; cbn; [reflexivity | now rewrite IH].
Qed.

Lemma for_items_fst (dev_ip : string) (its : items) (d : dict) :
  fst (for_items dev_ip its d) =
  if forallb (fun it => Py.nonempty (snd it)) its then inr tt
  else inl IndexError.
Proof.
  revert d. induction its as [|[dev_key value] its IH]; intros d;
    [reflexivity|].
  cbn. destruct value; [reflexivity | apply IH].
Qed.

Lemma for_sections_fst (secs : parsed_file) (d : dict) :
  fst (for_sections secs d) =
  if forallb (fun a => Py.nonempty (snd a))
             (flat_map section_assignments secs)
  then inr tt else inl IndexError.
Proof.
  revert d. induction secs as [|[name its] secs IH]; intros d;
    [reflexivity|].
  cbn [for_sections flat_map]. rewrite forallb_app.
  unfold section_assignments at 1. cbn [fst snd].
  destruct (PyStr.partition ":" name) as [[dev_id sep] dev_ip].
  destruct (String.eqb (PyStr.lower dev_id) "ml2_mech_cisco_nexus");
    [|apply IH].
  pose proof (for_items_fst dev_ip its d) as F.
  rewrite forallb_on_map. cbn [snd].
  destruct (for_items dev_ip its d) as [[e|[]] d1]; cbn in F.
  - destruct (forallb _ its); [discriminate|]. exact F.
  - destruct (forallb _ its); [|discriminate]. apply IH.
Qed.

Lemma for_files_fst (parsed : list parsed_file) (d : dict) :
  fst (for_files parsed d) =
  if forallb (fun a => Py.nonempty (snd a)) (assignments parsed)
  then inr tt else inl IndexError.
Proof.
  revert d. induction parsed as [|file parsed IH]; intros d;
    [reflexivity|].
  cbn [for_files]. unfold assignments. cbn [flat_map].
  rewrite forallb_app.
  pose proof (for_sections_fst file d) as F.
  destruct (for_sections file d) as [[e|[]] d1]; cbn in F.
  - destruct (forallb _ (flat_map section_assignments file));
      [discriminate|]. exact F.
  - destruct (forallb _ (flat_map section_assignments file));
      [|discriminate]. apply IH.
Qed.

(** A load fails with [Error] exactly when not every configuration file
    was read; otherwise it fails with [IndexError] exactly when some item
    of a nexus section comes without a value, and succeeds in every other
    case. *)
Theorem config_load_outcome
        (config_file read_ok : list string) (parsed : list parsed_file)
        (d : dict) :
  fst (_create_ml2_mech_device_cisco_dictionary config_file read_ok parsed d)
  = if negb (Nat.eqb (List.length read_ok) (List.length config_file))
    then inl (Error "Some config files were not parsed properly")
    else if forallb (fun a => Py.nonempty (snd a)) (assignments parsed)
         then inr tt
         else inl IndexError.
Proof.
  unfold _create_ml2_mech_device_cisco_dictionary.
  destruct (negb _); [reflexivity | apply for_files_fst].
Qed.

Lemma get_setitem_kept (k k' : string * string) (v : string) (d : dict) :
  get k d <> None -> get k (setitem k' v d) <> None.
Proof.
  rewrite get_setitem. destruct (dev_key_eqb k' k); [discriminate | auto].
Qed.

Lemma for_items_keeps (dev_ip : string) (its : items) (d : dict)
      (k : string * string) :
  get k d <> None -> get k (snd (for_items dev_ip its d)) <> None.
Proof.
  revert d. induction its as [|[dev_key value] its IH]; intros d H;
    [exact H|].
  cbn. destruct value; [exact H|]. apply IH. now apply get_setitem_kept.
Qed.

Lemma for_sections_keeps (secs : parsed_file) (d : dict)
      (k : string * string) :
  get k d <> None -> get k (snd (for_sections secs d)) <> None.
Proof.
  revert d. induction secs as [|[name its] secs IH]; intros d H;
    [exact H|].
  cbn [for_sections].
  destruct (PyStr.partition ":" name) as [[dev_id sep] dev_ip].
  destruct (String.eqb (PyStr.lower dev_id) "ml2_mech_cisco_nexus");
    [|now apply IH].
  pose proof (for_items_keeps dev_ip its d k H) as K.
  destruct (for_items dev_ip its d) as [[e|[]] d1]; cbn in K;
    [exact K | now apply IH].
Qed.

Lemma for_files_keeps (parsed : list parsed_file) (d : dict)
      (k : string * string) :
  get k d <> None -> get k (snd (for_files parsed d)) <> None.
Proof.
  revert d. induction parsed as [|file parsed IH]; intros d H;
    [exact H|].
  cbn [for_files].
  pose proof (for_sections_keeps file d k H) as K.
  destruct (for_sections file d) as [[e|[]] d1]; cbn in K;
    [exact K | now apply IH].
Qed.

(** The dictionary only grows: whether a load succeeds or fails, every
    key it held before is still held after; and a load that fails because
    a file was not read leaves the dictionary as it was. *)
Theorem config_never_forgets
        (config_file read_ok : list string) (parsed : list parsed_file)
        (d : dict) :
  (forall k, get k d <> None ->
             get k (snd (_create_ml2_mech_device_cisco_dictionary
                           config_file read_ok parsed d)) <> None)
  /\ (List.length read_ok <> List.length config_file ->
      snd (_create_ml2_mech_device_cisco_dictionary
             config_file read_ok parsed d) = d).
Proof.
  unfold _create_ml2_mech_device_cisco_dictionary. split.
  - intros k H. destruct (negb _); [exact H | now apply for_files_keeps].
  - intros H. apply Nat.eqb_neq in H. rewrite H. reflexivity.
Qed.
End NexusConfigSections.

(** ** The further properties at sample inputs *)

Section NexusSamples.
Import nexus_models_v2 nexus_db_v2 BindingStore NveStore.
Import NexusPortBinding (column(..)).

(** The two sample bindings of the switch, on a database that hands
    back the rows of a query newest first. *)
Lemma lookup_first_returns_a_match_witness :
  (forall (q : @Sa.Query NexusPortBinding.t) o, In o (rev q) <-> In o q)
  /\ find [(Switch_ip, Py.VStr "1.1.1.1")] two_bindings <> []
  /\ exists o,
      Sa.with_session
        (_lookup_first_nexus_binding (@rev _)
                                     [(Switch_ip, Py.VStr "1.1.1.1")])
        two_bindings
      = (inr (Some o), two_bindings)
      /\ In o (port_rows two_bindings)
      /\ matches [(Switch_ip, Py.VStr "1.1.1.1")] (Sa.state o) = true.
Proof.
  assert (R : forall (q : @Sa.Query NexusPortBinding.t) o,
             In o (rev q) <-> In o q).
  { intros q o. symmetry. apply in_rev. }
  assert (F : find [(Switch_ip, Py.VStr "1.1.1.1")] two_bindings <> [])
    by discriminate.
  split; [exact R|]. split; [exact F|].
  exact (proj1 (proj2 (lookup_first_returns_a_match
                         (@rev _) [(Switch_ip, Py.VStr "1.1.1.1")]
                         two_bindings R)) F).
Defined.

(** The binding of vm1 is among the bindings of its port and switch. *)
Lemma narrower_lookup_within_wider_witness :
  get_nexusport_binding (Py.VStr "ethernet:1/10") (Py.VInt 100)
    (Py.VStr "1.1.1.1") (Py.VStr "vm1") two_bindings
  = (inr [Sa.Persistent 0 (sample_row "vm1")], two_bindings)
  /\ exists l1 l2 l3 l4 l5,
      get_port_vlan_switch_binding (Py.VStr "ethernet:1/10") (Py.VInt 100)
        (Py.VStr "1.1.1.1") two_bindings = (inr l1, two_bindings)
      /\ incl [Sa.Persistent 0 (sample_row "vm1")] l1
      /\ get_nexusvlan_binding (Py.VInt 100) (Py.VStr "1.1.1.1") two_bindings
         = (inr l2, two_bindings)
      /\ incl l1 l2
      /\ get_nexusport_switch_bindings (Py.VStr "1.1.1.1") two_bindings
         = (inr l3, two_bindings)
      /\ incl l2 l3
      /\ get_port_switch_bindings (Py.VStr "ethernet:1/10")
           (Py.VStr "1.1.1.1") two_bindings = (inr (Some l4), two_bindings)
      /\ incl l1 l4
      /\ get_nexusvm_bindings (Py.VInt 100) (Py.VStr "vm1") two_bindings
         = (inr l5, two_bindings)
      /\ incl [Sa.Persistent 0 (sample_row "vm1")] l5.
Proof.
  split; [reflexivity|].
  exact (narrower_lookup_within_wider
           (Py.VStr "ethernet:1/10") (Py.VInt 100) (Py.VStr "1.1.1.1")
           (Py.VStr "vm1") two_bindings two_bindings
           [Sa.Persistent 0 (sample_row "vm1")] eq_refl).
Defined.


(** Removing the binding of vm1 twice. *)
Lemma remove_then_remove_raises_witness :
  Sa.wf_table (nexusport_bindings two_bindings)
  /\ remove_nexusport_binding surrogate_key_only
       (Py.VStr "ethernet:1/10") (Py.VInt 100) Py.VNone (Py.VStr "1.1.1.1")
       (Py.VStr "vm1") (Py.VBool false) two_bindings
     = (inr [Sa.Persistent 0 (sample_row "vm1")],
        Database (Sa.Table [Sa.Persistent 1 (sample_row "vm2")] 2)
                 (Sa.empty_table _))
  /\ fst (remove_nexusport_binding surrogate_key_only
            (Py.VStr "ethernet:1/10") (Py.VInt 100) Py.VNone
            (Py.VStr "1.1.1.1") (Py.VStr "vm1") (Py.VBool false)
            (Database (Sa.Table [Sa.Persistent 1 (sample_row "vm2")] 2)
                      (Sa.empty_table _)))
     = inl (NexusPortBindingNotFound
              [(Vlan_id, Py.VInt 100); (Vni, Py.VNone);
               (Switch_ip, Py.VStr "1.1.1.1");
               (Port_id, Py.VStr "ethernet:1/10");
               (Instance_id, Py.VStr "vm1");
               (Is_provider_vlan, Py.VBool false)]).
Proof.
  split; [exact wf_two_bindings|]. split; [reflexivity|].
  exact (f_equal fst
           (proj1 (remove_then_remove_raises surrogate_key_only
                     (Py.VStr "ethernet:1/10") (Py.VInt 100) Py.VNone
                     (Py.VStr "1.1.1.1") (Py.VStr "vm1") (Py.VBool false)
                     two_bindings _ _ wf_two_bindings eq_refl))).
Defined.

(** Inserting and removing the binding of vm2 beside that of vm1. *)
Lemma add_then_remove_restores_rows_witness :
  Py.VBool false <> Py.VNone
  /\ Sa.wf_table (nexusport_bindings one_binding)
  /\ find [(Vlan_id, Py.VInt 100); (Vni, Py.VNone);
           (Switch_ip, Py.VStr "1.1.1.1");
           (Port_id, Py.VStr "ethernet:1/10");
           (Instance_id, Py.VStr "vm2");
           (Is_provider_vlan, Py.VBool false)] one_binding = []
  /\ exists db2,
      port_rows db2 = port_rows one_binding
      /\ nexusnve_bindings db2 = nexusnve_bindings one_binding
      /\ remove_nexusport_binding surrogate_key_only
           (Py.VStr "ethernet:1/10") (Py.VInt 100) Py.VNone
           (Py.VStr "1.1.1.1") (Py.VStr "vm2") (Py.VBool false) two_bindings
         = if surrogate_key_only db2
           then (inr [Sa.Persistent 1 (sample_row "vm2")], db2)
           else (inl DBError, two_bindings).
Proof.
  assert (B : Py.VBool false <> Py.VNone) by discriminate.
  split; [exact B|]. split; [exact wf_one_binding|]. split; [reflexivity|].
  exact (add_then_remove_restores_rows surrogate_key_only
           (Py.VStr "ethernet:1/10") (Py.VInt 100) Py.VNone
           (Py.VStr "1.1.1.1") (Py.VStr "vm2") (Py.VBool false)
           one_binding two_bindings (Sa.Persistent 1 (sample_row "vm2"))
           B wf_one_binding eq_refl eq_refl).
Defined.

(** Moving the sample binding to vlan 200, twice. *)
Lemma update_then_lookup_and_again_witness :
  Sa.wf_table (nexusport_bindings one_binding)
  /\ Py.truthy (Py.VInt 200) = true
  /\ update_nexusport_binding surrogate_key_only
       (Py.VStr "ethernet:1/10") (Py.VInt 200)
       (with_vlan (Py.VStr "ethernet:1/10") (Py.VInt 200) one_binding)
     = (inr (Some (Sa.Persistent 0
                     (NexusPortBinding.set_vlan_id (sample_row "vm1")
                                                   (Py.VInt 200)))),
        with_vlan (Py.VStr "ethernet:1/10") (Py.VInt 200) one_binding).
Proof.
  split; [exact wf_one_binding|]. split; [reflexivity|].
  exact (proj2 (proj2 (proj2
           (update_then_lookup_and_again surrogate_key_only
              (Py.VStr "ethernet:1/10") (Py.VInt 200) one_binding _ _
              wf_one_binding eq_refl eq_refl)))).
Defined.

(** Moving the binding of the one port leaves its other columns. *)
Lemma update_changes_only_vlan_witness :
  Sa.wf_table (nexusport_bindings one_binding)
  /\ Py.truthy (Py.VInt 200) = true
  /\ nexusnve_bindings
       (with_vlan (Py.VStr "ethernet:1/10") (Py.VInt 200) one_binding)
     = nexusnve_bindings one_binding.
Proof.
  split; [exact wf_one_binding|]. split; [reflexivity|].
  exact (proj2 (proj2
           (update_changes_only_vlan surrogate_key_only
              (Py.VStr "ethernet:1/10") (Py.VInt 200) one_binding
              (with_vlan (Py.VStr "ethernet:1/10") (Py.VInt 200) one_binding)
              (Sa.Persistent 0
                 (NexusPortBinding.set_vlan_id (sample_row "vm1")
                                               (Py.VInt 200)))
              wf_one_binding eq_refl eq_refl))).
Defined.

(** A first NVE member on a switch. *)
Lemma add_nve_then_member_lookup_witness :
  add_nexusnve_binding surrogate_key_only
    (Py.VInt 5000) (Py.VStr "1.1.1.1") (Py.VStr "device-1")
    (Py.VStr "225.1.1.1") empty
  = (inr (Sa.Persistent 0
            (NexusNVEBinding.Build (Py.VInt 5000) (Py.VStr "1.1.1.1")
                                   (Py.VStr "device-1") (Py.VStr "225.1.1.1"))),
     with_nve (NexusNVEBinding.Build (Py.VInt 5000) (Py.VStr "1.1.1.1")
                                     (Py.VStr "device-1")
                                     (Py.VStr "225.1.1.1")) empty)
  /\ get_nve_vni_member_bindings (Py.VInt 5000) (Py.VStr "1.1.1.1")
       (Py.VStr "device-1")
       (with_nve (NexusNVEBinding.Build (Py.VInt 5000) (Py.VStr "1.1.1.1")
                                        (Py.VStr "device-1")
                                        (Py.VStr "225.1.1.1")) empty)
     = (inr (Some [Sa.Persistent 0
                     (NexusNVEBinding.Build (Py.VInt 5000) (Py.VStr "1.1.1.1")
                                            (Py.VStr "device-1")
                                            (Py.VStr "225.1.1.1"))]),
        with_nve (NexusNVEBinding.Build (Py.VInt 5000) (Py.VStr "1.1.1.1")
                                        (Py.VStr "device-1")
                                        (Py.VStr "225.1.1.1")) empty).
Proof.
  split; [reflexivity|].
  exact (proj1 (add_nve_then_member_lookup surrogate_key_only
                  (Py.VInt 5000) (Py.VStr "1.1.1.1") (Py.VStr "device-1")
                  (Py.VStr "225.1.1.1") empty _ _ eq_refl)).
Defined.

(** Removing the only NVE member of a switch. *)
Lemma remove_nexusnve_binding_one_or_raises_witness :
  members (Py.VInt 5000) (Py.VStr "1.1.1.1") (Py.VStr "device-1")
    (with_nve (NexusNVEBinding.Build (Py.VInt 5000) (Py.VStr "1.1.1.1")
                                     (Py.VStr "device-1")
                                     (Py.VStr "225.1.1.1")) empty)
  = [Sa.Persistent 0
       (NexusNVEBinding.Build (Py.VInt 5000) (Py.VStr "1.1.1.1")
                              (Py.VStr "device-1") (Py.VStr "225.1.1.1"))]
  /\ members (Py.VInt 5000) (Py.VStr "1.1.1.1") (Py.VStr "device-1")
       (without_nve
          (Sa.Persistent 0
             (NexusNVEBinding.Build (Py.VInt 5000) (Py.VStr "1.1.1.1")
                                    (Py.VStr "device-1")
                                    (Py.VStr "225.1.1.1")))
          (with_nve (NexusNVEBinding.Build (Py.VInt 5000) (Py.VStr "1.1.1.1")
                                           (Py.VStr "device-1")
                                           (Py.VStr "225.1.1.1")) empty))
     = [].
Proof.
  split; [reflexivity|].
  exact (proj1 (proj2 (proj2
           (remove_nexusnve_binding_one_or_raises surrogate_key_only
              (Py.VInt 5000) (Py.VStr "1.1.1.1") (Py.VStr "device-1")
              (with_nve (NexusNVEBinding.Build (Py.VInt 5000)
                           (Py.VStr "1.1.1.1") (Py.VStr "device-1")
                           (Py.VStr "225.1.1.1")) empty)))) _ eq_refl).
Defined.
End NexusSamples.

Section N1kvSamples.
Import n1kv_models n1kv_db ProfileStore.

(** A first binding for a network. *)
Lemma add_network_binding_then_get_witness :
  Sa.with_session
    (add_network_binding unconstrained (Py.VStr "net-2") (Py.VStr "vlan")
                         (Py.VInt 200) (Py.VStr "np-1")) profile_in_use
  = (inr (Sa.Persistent 1
            (N1kvNetworkBinding.Build (Py.VStr "net-2") (Py.VStr "vlan")
                                      (Py.VInt 200) (Py.VStr "np-1"))),
     with_network_binding
       (N1kvNetworkBinding.Build (Py.VStr "net-2") (Py.VStr "vlan")
                                 (Py.VInt 200) (Py.VStr "np-1"))
       profile_in_use)
  /\ get_network_binding (Py.VStr "net-2")
       (with_network_binding
          (N1kvNetworkBinding.Build (Py.VStr "net-2") (Py.VStr "vlan")
                                    (Py.VInt 200) (Py.VStr "np-1"))
          profile_in_use)
     = (inr (Sa.Persistent 1
               (N1kvNetworkBinding.Build (Py.VStr "net-2") (Py.VStr "vlan")
                                         (Py.VInt 200) (Py.VStr "np-1"))),
        with_network_binding
          (N1kvNetworkBinding.Build (Py.VStr "net-2") (Py.VStr "vlan")
                                    (Py.VInt 200) (Py.VStr "np-1"))
          profile_in_use).
Proof.
  split; [reflexivity|].
  exact (proj2 (add_network_binding_then_get unconstrained
                  (Py.VStr "net-2") (Py.VStr "vlan") (Py.VInt 200)
                  (Py.VStr "np-1") profile_in_use _ _ eq_refl)).
Defined.

(** The profile of the sample network. *)
Lemma get_network_profile_by_network_follows_binding_witness :
  get_network_profile_by_network (Py.VStr "net-1") profile_in_use
  = (inr (Sa.Persistent 0
            (NetworkProfile.Build (Py.VStr "np-1") (Py.VStr "default-vlan")
                                  (Py.VStr "vlan"))), profile_in_use)
  /\ exists b,
      get_network_binding (Py.VStr "net-1") profile_in_use
      = (inr b, profile_in_use)
      /\ Py.VStr "np-1" = N1kvNetworkBinding.profile_id (Sa.state b)
      /\ In (Sa.Persistent 0
               (NetworkProfile.Build (Py.VStr "np-1") (Py.VStr "default-vlan")
                                     (Py.VStr "vlan")))
            (profile_rows profile_in_use).
Proof.
  split; [reflexivity|].
  exact (proj1 (get_network_profile_by_network_follows_binding
                  (Py.VStr "net-1") profile_in_use) _ eq_refl).
Defined.

(** Deleting the profile of the sample network. *)
Lemma profile_of_a_network_is_kept_witness :
  (forall d, foreign_key_declared d = true -> references_kept d = true)
  /\ get_network_profile_by_network (Py.VStr "net-1") profile_in_use
     = (inr (Sa.Persistent 0
               (NetworkProfile.Build (Py.VStr "np-1") (Py.VStr "default-vlan")
                                     (Py.VStr "vlan"))), profile_in_use)
  /\ Sa.with_session
       (remove_network_profile foreign_key_declared (Py.VStr "np-1"))
       profile_in_use
     = (inl DBError, profile_in_use).
Proof.
  split; [exact (fun d H => H)|]. split; [reflexivity|].
  exact (proj1 (profile_of_a_network_is_kept foreign_key_declared
                  (Py.VStr "net-1") profile_in_use
                  (Sa.Persistent 0
                     (NetworkProfile.Build (Py.VStr "np-1")
                                           (Py.VStr "default-vlan")
                                           (Py.VStr "vlan")))
                  (fun d H => H) eq_refl)).
Defined.


(** A first policy binding for a port. *)
Lemma add_policy_binding_marks_profile_in_use_witness :
  policy_profile_in_use (Py.VStr "pp-1") empty = (inr false, empty)
  /\ policy_profile_in_use (Py.VStr "pp-1")
       (snd (Sa.with_session
               (add_policy_binding unconstrained (Py.VStr "port-1")
                                   (Py.VStr "pp-1")) empty))
     = (inr true,
        snd (Sa.with_session
               (add_policy_binding unconstrained (Py.VStr "port-1")
                                   (Py.VStr "pp-1")) empty)).
Proof.
  split; [reflexivity|].
  exact (proj1 (add_policy_binding_marks_profile_in_use unconstrained
                  (Py.VStr "port-1") (Py.VStr "pp-1") empty _ _ eq_refl)).
Defined.

(** The one vlan profile of the sample database. *)
Lemma get_network_profile_by_type_exactly_one_witness :
  fst (Sa.with_session (get_network_profile_by_type (Py.VStr "vlan"))
                       profile_in_use)
  = inr (Sa.Persistent 0
           (NetworkProfile.Build (Py.VStr "np-1") (Py.VStr "default-vlan")
                                 (Py.VStr "vlan")))
  /\ NetworkProfile.segment_type
       (NetworkProfile.Build (Py.VStr "np-1") (Py.VStr "default-vlan")
                             (Py.VStr "vlan")) = Py.VStr "vlan".
Proof.
  split; [reflexivity|].
  exact (proj1 (proj2
           (proj2 (get_network_profile_by_type_exactly_one
                     (Py.VStr "vlan") profile_in_use) _ eq_refl))).
Defined.

(** Looking for a policy profile in an empty table. *)
Lemma get_policy_profile_none_when_absent_witness :
  (forall (q : @Sa.Query PolicyProfile.t) o, In o (rev q) <-> In o q)
  /\ exists r,
      Sa.with_session
        (get_policy_profile_by_name (fun t => t) (@rev _)
                                    (Py.VStr "default-pp"))
        (Sa.empty_table PolicyProfile.t)
      = (inr r, Sa.empty_table PolicyProfile.t)
      /\ match r with
         | None =>
             forall o, In o (Sa.rows (Sa.empty_table PolicyProfile.t)) ->
                       PolicyProfile.name (Sa.state o) <> Py.VStr "default-pp"
         | Some o =>
             In o (Sa.rows (Sa.empty_table PolicyProfile.t))
             /\ PolicyProfile.name (Sa.state o) = Py.VStr "default-pp"
         end.
Proof.
  assert (R : forall (q : @Sa.Query PolicyProfile.t) o,
             In o (rev q) <-> In o q).
  { intros q o. symmetry. apply in_rev. }
  split; [exact R|].
  exact (proj1 (get_policy_profile_none_when_absent
                  (Sa.table PolicyProfile.t) (fun t => t) (@rev _)
                  (Py.VStr "default-pp") (Sa.empty_table PolicyProfile.t) R)).
Defined.
End N1kvSamples.

Section NotifierSamples.
Import l3_router_rpc_joint_agent_api.

(** Deleting a router whose hosting device has two cfg agents. *)
Lemma router_deleted_casts_once_per_agent_witness :
  router_deleted
    (fun admin : bool => admin) (fun _ => true)
    (fun _ _ (p : nat) =>
       (inr [Agent (Py.VStr "cfg") (Py.VStr "host-1");
             Agent (Py.VStr "cfg") (Py.VStr "host-2")], S p))
    false
    (Router (Py.VStr "router-1") (Some (HostingDevice (Py.VStr "hd-1"))))
    (World 0 [])
  = (inr tt,
     World 1
       [Cast CFG_AGENT_L3_ROUTING (Py.VStr "host-1") false "router_deleted"
             (routers_kw [Py.VStr "router-1"]);
        Cast CFG_AGENT_L3_ROUTING (Py.VStr "host-2") false "router_deleted"
             (routers_kw [Py.VStr "router-1"])]).
Proof.
  exact (router_deleted_casts_once_per_agent
           bool (fun admin : bool => admin) (fun _ => true) nat
           (fun _ _ (p : nat) =>
              (inr [Agent (Py.VStr "cfg") (Py.VStr "host-1");
                    Agent (Py.VStr "cfg") (Py.VStr "host-2")], S p))
           false
           (Router (Py.VStr "router-1")
                   (Some (HostingDevice (Py.VStr "hd-1"))))
           (HostingDevice (Py.VStr "hd-1")) _ 1 (World 0 [])
           eq_refl eq_refl).
Defined.

(** A plugin that answers for the first hosting device and raises for
    the second. *)
Lemma plugin_failure_stops_notification_witness :
  _agent_notification
    (fun admin : bool => admin) (fun _ => true)
    (fun _ ids (p : nat) =>
       match ids with
       | [Py.VStr "hd-1"] =>
           (inr [Agent (Py.VStr "cfg") (Py.VStr "host-1")], S p)
       | _ => (inl NoResultFound, S p)
       end)
    true "routers_updated"
    ([Router (Py.VStr "router-1") (Some (HostingDevice (Py.VStr "hd-1")))]
     ++ Router (Py.VStr "router-2") (Some (HostingDevice (Py.VStr "hd-2")))
     :: [Router (Py.VStr "router-3")
                (Some (HostingDevice (Py.VStr "hd-1")))])
    Py.VNone Py.VNone (World 0 [])
  = (inl NoResultFound,
     World 2
       [Cast CFG_AGENT_L3_ROUTING (Py.VStr "host-1") true "routers_updated"
             (routers_kw [Py.VStr "router-1"])]).
Proof.
  exact (plugin_failure_stops_notification
           bool (fun admin : bool => admin) (fun _ => true) nat
           (fun _ ids (p : nat) =>
              match ids with
              | [Py.VStr "hd-1"] =>
                  (inr [Agent (Py.VStr "cfg") (Py.VStr "host-1")], S p)
              | _ => (inl NoResultFound, S p)
              end)
           true "routers_updated"
           [Router (Py.VStr "router-1")
                   (Some (HostingDevice (Py.VStr "hd-1")))]
           [Router (Py.VStr "router-3")
                   (Some (HostingDevice (Py.VStr "hd-1")))]
           (Router (Py.VStr "router-2")
                   (Some (HostingDevice (Py.VStr "hd-2"))))
           (HostingDevice (Py.VStr "hd-2")) Py.VNone Py.VNone
           NoResultFound 2 (World 0 []) _ eq_refl eq_refl eq_refl).
Defined.
End NotifierSamples.

Section ConfigSamples.
Import nexus_config.
Open Scope string_scope.

(** Two parsed files naming the same switch: the user of the file the
    parser holds last wins, the port of the other file stays, and the ml2
    section is skipped. *)
Lemma config_last_assignment_wins_witness :
  _create_ml2_mech_device_cisco_dictionary ["a.ini"; "b.ini"]
    ["a.ini"; "b.ini"]
    [[("ML2_MECH_CISCO_NEXUS:1.1.1.1", [("username", ["root"; "x"])])];
     [("ml2", [("type_drivers", ["vlan"])]);
      ("ml2_mech_cisco_nexus:1.1.1.1",
       [("username", ["admin"]); ("compute1", ["1/1"])])]]
    []
  = (inr tt, [(("1.1.1.1", "username"), "admin");
              (("1.1.1.1", "compute1"), "1/1")])
  /\ get ("1.1.1.1", "username")
         [(("1.1.1.1", "username"), "admin");
          (("1.1.1.1", "compute1"), "1/1")]
     = Some "admin".
Proof.
  split; [reflexivity|].
  exact (config_last_assignment_wins ["a.ini"; "b.ini"] ["a.ini"; "b.ini"]
           [[("ML2_MECH_CISCO_NEXUS:1.1.1.1",
              [("username", ["root"; "x"])])];
            [("ml2", [("type_drivers", ["vlan"])]);
             ("ml2_mech_cisco_nexus:1.1.1.1",
              [("username", ["admin"]); ("compute1", ["1/1"])])]]
           [] _ eq_refl ("1.1.1.1", "username")).
Defined.

(** Loading one file twice. *)
Lemma config_reload_changes_nothing_witness :
  _create_ml2_mech_device_cisco_dictionary ["a.ini"] ["a.ini"]
    [[("ml2_mech_cisco_nexus:1.1.1.1", [("username", ["admin"])])]] []
  = (inr tt, [(("1.1.1.1", "username"), "admin")])
  /\ exists d2,
      _create_ml2_mech_device_cisco_dictionary ["a.ini"] ["a.ini"]
        [[("ml2_mech_cisco_nexus:1.1.1.1", [("username", ["admin"])])]]
        [(("1.1.1.1", "username"), "admin")]
      = (inr tt, d2)
      /\ forall k, get k d2 = get k [(("1.1.1.1", "username"), "admin")].
Proof.
  split; [reflexivity|].
  exact (config_reload_changes_nothing ["a.ini"] ["a.ini"]
           [[("ml2_mech_cisco_nexus:1.1.1.1", [("username", ["admin"])])]]
           [] _ eq_refl).
Defined.

(** A UCS manager section between two nexus sections. *)
Lemma config_ignores_other_sections_witness :
  String.eqb
    (PyStr.lower (fst (fst (PyStr.partition ":" "ml2_cisco_ucsm:2.2.2.2"))))
    "ml2_mech_cisco_nexus" = false
  /\ _create_ml2_mech_device_cisco_dictionary ["a.ini"] ["a.ini"]
       ([] ++ ([("ml2_mech_cisco_nexus:1.1.1.1", [("username", ["admin"])])]
               ++ ("ml2_cisco_ucsm:2.2.2.2", [("username", ["ucs"])])
               :: [("ml2_mech_cisco_nexus:3.3.3.3",
                    [("username", ["other"])])]) :: [])%list []
     = _create_ml2_mech_device_cisco_dictionary ["a.ini"] ["a.ini"]
         ([] ++ ([("ml2_mech_cisco_nexus:1.1.1.1", [("username", ["admin"])])]
                 ++ [("ml2_mech_cisco_nexus:3.3.3.3",
                      [("username", ["other"])])]) :: [])%list [].
Proof.
  split; [reflexivity|].
  exact (config_ignores_other_sections ["a.ini"] ["a.ini"] [] []
           [("ml2_mech_cisco_nexus:1.1.1.1", [("username", ["admin"])])]
           [("ml2_mech_cisco_nexus:3.3.3.3", [("username", ["other"])])]
           "ml2_cisco_ucsm:2.2.2.2" [("username", ["ucs"])] [] eq_refl).
Defined.

(** An upper-case section name with an IPv6 address. *)
Lemma config_address_follows_first_colon_witness :
  PyStr.lower "ML2_MECH_CISCO_NEXUS" = "ml2_mech_cisco_nexus"
  /\ snd (_create_ml2_mech_device_cisco_dictionary ["a.ini"] ["a.ini"]
            [[("ML2_MECH_CISCO_NEXUS:2001:db8::1",
               [("username", ["admin"])])]] [])
     = [(("2001:db8::1", "username"), "admin")].
Proof.
  split; [reflexivity|].
  exact (proj1 (proj2 (proj1
           (config_address_follows_first_colon "a.ini"
              "ML2_MECH_CISCO_NEXUS" "2001:db8::1" "username" "admin" []
              [] eq_refl)))).
Defined.

(** A second load that fails on an item without value keeps what the
    first load stored. *)
Lemma config_never_forgets_witness :
  get ("1.1.1.1", "username") [(("1.1.1.1", "username"), "admin")]
  <> None
  /\ get ("1.1.1.1", "username")
         (snd (_create_ml2_mech_device_cisco_dictionary ["b.ini"] ["b.ini"]
                 [[("ml2_mech_cisco_nexus:2.2.2.2",
                    [("username", ["root"]); ("password", [])])]]
                 [(("1.1.1.1", "username"), "admin")]))
     <> None.
Proof.
  assert (H : get ("1.1.1.1", "username")
                  [(("1.1.1.1", "username"), "admin")] <> None)
    by discriminate.
  split; [exact H|].
  exact (proj1 (config_never_forgets ["b.ini"] ["b.ini"]
                  [[("ml2_mech_cisco_nexus:2.2.2.2",
                     [("username", ["root"]); ("password", [])])]]
                  [(("1.1.1.1", "username"), "admin")])
               ("1.1.1.1", "username") H).
Defined.
End ConfigSamples.
